(** * ChatBot (chat.py): conversation state and retry controller

    A shallow embedding of [src/chat.py].  Python's effects are threaded
    through an explicit world: the heap of list objects, the file system,
    the console input, the requests handed to the completion service and
    the durations handed to [time.sleep].  A computation ends by
    returning, by raising an exception, or by [exit(code)].

    Not modelled: console output ([print]), command-line parsing, and
    the JSON and response logs written under [log/openai].  The exchange
    is embedded from its retry loop on (lines 129-158), that is, from
    the point where the two request logs of lines 126-127 have been
    written; the request transcript of line 127 is embedded on its own.
    The file system is that of POSIX; a file is named by the relative
    path the program spells, and is read in text mode. *)

From Stdlib Require Import ZArith Lia Ascii String.
From stdpp Require Import gmap strings list.

Local Open Scope string_scope.
Local Open Scope Z_scope.

(** ** Python string operations

    A [string] stands for a Python [str]; each character is taken to be
    one code point below 256. *)

Module PyStr.

(** ["\n"] *)
Definition NL : string := String "010"%char EmptyString.

(** [needle in hay] *)
Fixpoint contains (needle hay : string) : bool :=
  String.prefix needle hay ||
  match hay with
  | EmptyString => false
  | String _ t => contains needle t
  end.

(** [sep.join(parts)] *)
Definition join (sep : string) (parts : list string) : string :=
  String.concat sep parts.

(** [s.replace("", new)]: [new] before every character and at the end. *)
Fixpoint replace_empty (new s : string) : string :=
  match s with
  | EmptyString => new
  | String c t => new +:+ String c (replace_empty new t)
  end.

(** Left-to-right scan of [s.replace(old, new)] for a non-empty [old];
    [skip] counts the characters of a match still to be passed over. *)
Fixpoint replace_scan (old new s : string) (skip : nat) : string :=
  match s with
  | EmptyString => EmptyString
  | String c t =>
      match skip with
      | S k => replace_scan old new t k
      | O =>
          if String.prefix old s
          then new +:+ replace_scan old new t (Nat.pred (String.length old))
          else String c (replace_scan old new t O)
      end
  end.

(** [s.replace(old, new)]: every non-overlapping occurrence, leftmost
    first. *)
Definition replace (old new s : string) : string :=
  match old with
  | EmptyString => replace_empty new s
  | String _ _ => replace_scan old new s O
  end.

(** [c in chars] for a single character. *)
Fixpoint char_in (chars : string) (c : ascii) : bool :=
  match chars with
  | EmptyString => false
  | String d t => Ascii.eqb c d || char_in t c
  end.

(** [str.isspace] on one character: tab to carriage return, the four
    separators 0x1c-0x1f, space, 0x85 and 0xa0. *)
Definition isspace (c : ascii) : bool :=
  let n := nat_of_ascii c in
  ((9 <=? n) && (n <=? 13) || (28 <=? n) && (n <=? 32)
   || (n =? 133) || (n =? 160))%nat.

Fixpoint lstrip_by (drop : ascii -> bool) (s : string) : string :=
  match s with
  | EmptyString => EmptyString
  | String c t => if drop c then lstrip_by drop t else s
  end.

Fixpoint rstrip_by (drop : ascii -> bool) (s : string) : string :=
  match s with
  | EmptyString => EmptyString
  | String c t =>
      match rstrip_by drop t with
      | EmptyString => if drop c then EmptyString else String c EmptyString
      | r => String c r
      end
  end.

(** [s.strip(chars)]: leading and trailing characters that occur in
    [chars] are removed. *)
Definition strip_chars (chars s : string) : string :=
  rstrip_by (char_in chars) (lstrip_by (char_in chars) s).

(** [s.strip()]: leading and trailing whitespace is removed. *)
Definition strip (s : string) : string :=
  rstrip_by isspace (lstrip_by isspace s).

End PyStr.

(** ** Data model *)

Inductive role_t : Set := user | assistant | system.

(** A message dict [{'role': ..., 'content': ...}].  The program never
    assigns into a message dict after building it, so a message is a
    value; the lists that hold messages are heap objects. *)
Record Message : Set := mkMessage { role : role_t; content : string }.

(** A reference to a Python list object: its index in the heap. *)
Definition loc := nat.

(** [class AppState]: the token budget and the reference held in
    [ALL_MESSAGES].  (Model name and temperature only reach the remote
    service and the console.) *)
Record AppState : Set := mkAppState {
  MODEL_MAX_TOKENS : Z;
  ALL_MESSAGES : loc
}.

Inductive exn : Set :=
| IndexError
| EOFError
| FileNotFoundError (path : string)
| APIError (msg : string).

(** [str(error)] *)
Definition exn_str (e : exn) : string :=
  match e with
  | IndexError => "pop from empty list"
  | EOFError => "EOF when reading a line"
  | FileNotFoundError p =>
      "[Errno 2] No such file or directory: '" +:+ p +:+ "'"
  | APIError msg => msg
  end.

(** One in-place change of a list object: which list, its items before
    and after. *)
Record Write : Set := mkWrite {
  w_loc : loc;
  w_before : list Message;
  w_after : list Message
}.

Record World : Type := mkWorld {
  app_state : AppState;
  heap : list (list Message);      (* the list objects, by reference *)
  files : gmap string string;      (* path -> contents *)
  stdin : list string;             (* lines still to be typed *)
  requests : list (list Message);  (* envelopes sent so far, oldest first *)
  sleeps : list Z;                 (* seconds passed to time.sleep, in order *)
  writes : list Write              (* trace of list mutations, in order *)
}.

Definition with_heap (h : list (list Message)) (w : World) : World :=
  mkWorld (app_state w) h (files w) (stdin w) (requests w) (sleeps w) (writes w).
Definition with_files (f : gmap string string) (w : World) : World :=
  mkWorld (app_state w) (heap w) f (stdin w) (requests w) (sleeps w) (writes w).
Definition with_stdin (i : list string) (w : World) : World :=
  mkWorld (app_state w) (heap w) (files w) i (requests w) (sleeps w) (writes w).
Definition with_requests (r : list (list Message)) (w : World) : World :=
  mkWorld (app_state w) (heap w) (files w) (stdin w) r (sleeps w) (writes w).
Definition with_sleeps (s : list Z) (w : World) : World :=
  mkWorld (app_state w) (heap w) (files w) (stdin w) (requests w) s (writes w).
Definition with_writes (t : list Write) (w : World) : World :=
  mkWorld (app_state w) (heap w) (files w) (stdin w) (requests w) (sleeps w) t.

(** The items of the list object at [l] (a reference the program holds
    always points into the heap). *)
Definition deref (w : World) (l : loc) : list Message := heap w !!! l.

(** ** Computations *)

Inductive outcome (A : Type) : Type :=
| Ret (a : A)          (* normal completion *)
| Raise (e : exn)      (* an exception propagates *)
| Exit (code : Z).     (* exit(code): SystemExit, not an Exception *)
Arguments Ret {A} a.
Arguments Raise {A} e.
Arguments Exit {A} code.

Definition M (A : Type) : Type := World -> outcome A * World.

Definition ret {A} (a : A) : M A := fun w => (Ret a, w).
Definition raise {A} (e : exn) : M A := fun w => (Raise e, w).
Definition exit {A} (code : Z) : M A := fun w => (Exit code, w).

Definition bind {A B} (m : M A) (k : A -> M B) : M B :=
  fun w =>
    match m w with
    | (Ret a, w') => k a w'
    | (Raise e, w') => (Raise e, w')
    | (Exit c, w') => (Exit c, w')
    end.

(** [try: body except Exception as e: handler(e)].  [exit] passes
    through: SystemExit is not an Exception. *)
Definition try_except {A} (body : M A) (handler : exn -> M A) : M A :=
  fun w =>
    match body w with
    | (Raise e, w') => handler e w'
    | r => r
    end.

Notation "'let*' x := m 'in' k" := (bind m (fun x => k))
  (at level 10, x name, m at level 100, k at level 200).
Notation "m ;;; k" := (bind m (fun _ => k))
  (at level 100, k at level 200, right associativity).

(** *** Primitive operations *)

(** Every in-place change of a list object goes through [store]. *)
Definition store (l : loc) (items : list Message) : M unit :=
  fun w =>
    (Ret tt,
     with_writes (writes w ++ [mkWrite l (deref w l) items])
       (with_heap (<[l := items]> (heap w)) w)).

(** [list()] *)
Definition list_new : M loc :=
  fun w => (Ret (length (heap w)), with_heap (heap w ++ [[]]) w).

(** [l.append(m)] *)
Definition list_append (l : loc) (m : Message) : M unit :=
  fun w => store l (deref w l ++ [m]) w.

(** [l += src] *)
Definition list_extend (l src : loc) : M unit :=
  fun w => store l (deref w l ++ deref w src) w.

(** [l.pop(i)] for [0 <= i]; the popped item is returned. *)
Definition list_pop (l : loc) (i : nat) : M Message :=
  fun w =>
    match deref w l !! i with
    | Some m => (store l (delete i (deref w l)) ;;; ret m) w
    | None => raise IndexError w
    end.

(** Reading in text mode: a carriage return followed by a newline, and
    a carriage return alone, both come out as one newline. *)
Fixpoint universal_newlines (s : string) : string :=
  match s with
  | EmptyString => EmptyString
  | String c t =>
      if Ascii.eqb c "013"%char then
        match t with
        | String d t' =>
            if Ascii.eqb d "010"%char
            then String "010"%char (universal_newlines t')
            else String "010"%char (universal_newlines t)
        | EmptyString => String "010"%char EmptyString
        end
      else String c (universal_newlines t)
  end.

(** [open_file(filepath)]: [files] holds the text each file stores; it
    is read in text mode. *)
Definition open_file (filepath : string) : M string :=
  fun w =>
    match files w !! filepath with
    | Some s => ret (universal_newlines s) w
    | None => raise (FileNotFoundError filepath) w
    end.

(** [save_file(filepath, content)], for a path whose directory is there
    and can be written: the text is stored as it is. *)
Definition save_file (filepath content : string) : M unit :=
  fun w => (Ret tt, with_files (<[filepath := content]> (files w)) w).

(** [input(prompt)] *)
Definition input : M string :=
  fun w =>
    match stdin w with
    | line :: rest => (Ret line, with_stdin rest w)
    | [] => raise EOFError w
    end.

(** [time.sleep(seconds)] *)
Definition sleep (seconds : Z) : M unit :=
  fun w => (Ret tt, with_sleeps (sleeps w ++ [seconds]) w).

(** [app_state.ALL_MESSAGES] and [app_state.MODEL_MAX_TOKENS] *)
Definition all_messages : M loc :=
  fun w => (Ret (ALL_MESSAGES (app_state w)), w).
Definition model_max_tokens : M Z :=
  fun w => (Ret (MODEL_MAX_TOKENS (app_state w)), w).

(** ** The program *)

Section Chat.

(** [processing_time] is a float read off the wall clock; its value
    comes from the environment and is only passed along. *)
Variable duration : Type.

(** What one call of the remote service does. *)
Inductive Reply : Type :=
| Completed (text : string) (total_tokens : Z) (elapsed : duration)
| Failed (msg : string).

(** The remote service: its answer may depend on all envelopes it has
    received before and on the one it receives now. *)
Variable client : list (list Message) -> list Message -> Reply.

Definition Result : Type := (string * Z * duration)%type.

(** The body of the [try] (lines 131-147): [get_response] sends the
    items the list object holds at that moment; [text], [total_tokens]
    and [processing_time] are read off the response.  Whatever goes
    wrong in there (an error of the service, a response without the
    expected fields) is an exception with some text, caught by the same
    [except]: [Failed] carries that text. *)
Definition get_response (conversation : loc) : M Result :=
  fun w =>
    let envelope := deref w conversation in
    let w' := with_requests (requests w ++ [envelope]) w in
    match client (requests w) envelope with
    | Completed text total_tokens elapsed => ret (text, total_tokens, elapsed) w'
    | Failed msg => raise (APIError msg) w'
    end.

(** [handle_error(error, conversation)] *)
Definition handle_error (error : exn) (conversation : loc) : M (bool * loc) :=
  if PyStr.contains "maximum context length" (exn_str error)
  then list_pop conversation 0 ;;; ret (true, conversation)
  else ret (false, conversation).

Definition max_retry : nat := 7.

(** One pass of the [for] body: [Some] result when the function
    returns from inside the [try], [None] (with the rebound
    [conversation]) when the pass ends and the loop goes on. *)
Definition attempt (retry : nat) (conversation : loc) : M (option Result * loc) :=
  try_except
    (let* r := get_response conversation in ret (Some r, conversation))
    (fun oops =>
       let* handled := handle_error oops conversation in
       let '(should_continue, conversation) := handled in
       if negb should_continue
       then
         let wait_time := 2 ^ Z.of_nat retry * 5 in
         sleep wait_time ;;; ret (None, conversation)
       else ret (None, conversation)).

(** [for retry in retries: ...] followed by [exit(1)]. *)
Fixpoint retry_loop (retries : list nat) (conversation : loc) : M Result :=
  match retries with
  | [] => exit 1
  | retry :: rest =>
      let* pass := attempt retry conversation in
      match pass with
      | (Some r, _) => ret r
      | (None, conversation) => retry_loop rest conversation
      end
  end.

(** [do_chatbot_conversation_exchange(conversation)] from its [for]
    loop on (lines 129-158). *)
Definition do_chatbot_conversation_exchange (conversation : loc) : M Result :=
  retry_loop (seq 0 max_retry) conversation.

(** The [while True] of [multi_line_input]; every round reads one
    line, so [fuel] above the number of lines left is never used up. *)
Fixpoint multi_line_loop (fuel : nat) (lines : list string) : M (list string) :=
  match fuel with
  | O => raise EOFError
  | S fuel =>
      let* line := input in
      if String.eqb line "END" then ret lines
      else multi_line_loop fuel (lines ++ [line])
  end.

(** [multi_line_input()] *)
Definition multi_line_input : M string :=
  fun w =>
    (let* lines := multi_line_loop (S (length (stdin w))) [] in
     ret (PyStr.join PyStr.NL lines)) w.

(** [get_user_input()]; [None] is Python's [None]. *)
Definition get_user_input : M (option string) :=
  let* text := input in
  if String.eqb "END" text then exit 0
  else if String.eqb "SCRATCHPAD" text || String.eqb "M" text then
    let* text := multi_line_input in
    save_file "scratchpad.txt" (PyStr.strip (PyStr.strip_chars "END" text)) ;;;
    ret None
  else ret (Some text).

(** [main], lines 227-229: a new list, extended in place with the
    history's items, then the system message appended. *)
Definition build_request (system_message : string) : M loc :=
  let* conversation := list_new in
  let* history := all_messages in
  list_extend conversation history ;;;
  list_append conversation (mkMessage system system_message) ;;;
  ret conversation.

(** [main], lines 234-235. *)
Definition trim_if_over_budget (tokens : Z) : M unit :=
  let* budget := model_max_tokens in
  if tokens >? budget
  then
    let* history := all_messages in
    list_pop history 0 ;;; ret tt
  else ret tt.

(** One pass of the [while True] body of [main]. *)
Definition main_turn : M unit :=
  let* text := get_user_input in
  match text with
  | None => ret tt
  | Some text =>
      if String.eqb text "" then ret tt
      else
        let* history := all_messages in
        list_append history (mkMessage user text) ;;;
        let* template := open_file "system_message.txt" in
        let* scratchpad := open_file "scratchpad.txt" in
        let system_message := PyStr.replace "<<CODE>>" scratchpad template in
        let* conversation := build_request system_message in
        let* r := do_chatbot_conversation_exchange conversation in
        let '(response, tokens, processing_time) := r in
        trim_if_over_budget tokens ;;;
        let* history := all_messages in
        list_append history (mkMessage assistant response)
  end.

(** [while True: ...] run for at most [fuel] passes; [Ret tt] means
    the loop is still running when the passes are used up. *)
Fixpoint main_loop (fuel : nat) : M unit :=
  match fuel with
  | O => ret tt
  | S fuel => main_turn ;;; main_loop fuel
  end.

(** [main()]: the key file is read (the key only goes to the client
    library), then the loop runs. *)
Definition main (fuel : nat) : M unit :=
  let* key := open_file "key_openai.txt" in
  main_loop fuel.

End Chat.

Arguments Completed {duration} text total_tokens elapsed.
Arguments Failed {duration} msg.

(** ** The request transcript log *)

(** [os.path.join(a, b)] on POSIX: an absolute [b] replaces [a];
    otherwise the two are joined by one slash. *)
Definition ends_with_slash (s : string) : bool :=
  match last (list_ascii_of_string s) with
  | Some c => Ascii.eqb c "/"%char
  | None => false
  end.

Definition path_join (a b : string) : string :=
  if String.prefix "/" b then b
  else if String.eqb a "" || ends_with_slash a then a +:+ b
  else a +:+ "/" +:+ b.

(** The text of a role, as stored under ['role']. *)
Definition role_str (r : role_t) : string :=
  match r with
  | user => "user"
  | assistant => "assistant"
  | system => "system"
  end.

(** [s.upper()] for ASCII text (the role names are): the letters a-z
    become A-Z, everything else stays. *)
Definition upper_char (c : ascii) : ascii :=
  let n := nat_of_ascii c in
  if ((97 <=? n) && (n <=? 122))%nat then ascii_of_nat (n - 32) else c.

Fixpoint upper (s : string) : string :=
  match s with
  | EmptyString => EmptyString
  | String c t => String (upper_char c) (upper t)
  end.

(** [create_log_file(suffix)]; [timestamp] is what
    [datetime.now().strftime("%Y%m%d_%H%M%S")] gives at that moment.
    (The directory is created when missing; directories are not part of
    the world.) *)
Definition create_log_file (timestamp suffix : string) : M string :=
  let log_dir := "log/openai" in
  let log_file := path_join log_dir (timestamp +:+ suffix +:+ ".txt") in
  ret log_file.

(** The loop of [save_request_as_humanreadable_text]: every message has
    both keys, so each adds ["ROLE:\ncontent\n\n"] to the text. *)
Fixpoint human_readable (text : string) (conversation : list Message) : string :=
  match conversation with
  | [] => text
  | message :: rest =>
      human_readable
        (text +:+ (upper (role_str (role message)) +:+ ":" +:+ PyStr.NL +:+
                   content message +:+ PyStr.NL +:+ PyStr.NL))
        rest
  end.

(** [save_request_as_humanreadable_text(conversation, suffix)] *)
Definition save_request_as_humanreadable_text (timestamp : string)
    (conversation : loc) (suffix : string) : M unit :=
  let* log_file := create_log_file timestamp suffix in
  fun w =>
    let human_readable_text := human_readable "" (deref w conversation) in
    save_file log_file human_readable_text w.

(** * Vocabulary of the properties *)

(** The test [handle_error] applies to the text of an error. *)
Definition context_length_error (msg : string) : bool :=
  PyStr.contains "maximum context length" msg.

(** The world once the envelope held at [conversation] has been sent. *)
Definition sent (conversation : loc) (w : World) : World :=
  with_requests (requests w ++ [deref w conversation]) w.

(** The envelopes of [N + 1] successive requests when each failure
    removes the front item. *)
Definition shrinking_envelopes (envelope : list Message) (N : nat)
  : list (list Message) :=
  (fun k => drop k envelope) <$> seq 0 (S N).

(** ** How the service behaves *)

Section ClientBehaviour.

Context {duration : Type}.
Variable client : list (list Message) -> list Message -> Reply duration.

(** Every call fails, never with a context-length message. *)
Definition always_fails_otherwise : Prop :=
  forall log envelope, exists msg,
    client log envelope = Failed msg /\ context_length_error msg = false.

(** Every call fails, and a context-length failure is only reported
    for an envelope that still has an item to remove. *)
Definition always_fails : Prop :=
  forall log envelope, exists msg,
    client log envelope = Failed msg /\
    (context_length_error msg = true -> envelope <> []).

(** Every call fails with a context-length message. *)
Definition always_overflows : Prop :=
  forall log envelope, exists msg,
    client log envelope = Failed msg /\ context_length_error msg = true.

(** The service fails with a context-length error on the calls numbered
    [first .. first + N - 1] (counting all requests ever sent) and
    completes call [first + N] with the given result. *)
Definition fails_then_completes (first N : nat) (text : string)
    (total_tokens : Z) (elapsed : duration) : Prop :=
  (forall log envelope,
      (first <= length log < first + N)%nat ->
      exists msg, client log envelope = Failed msg /\
                  context_length_error msg = true) /\
  (forall log envelope,
      length log = (first + N)%nat ->
      client log envelope = Completed text total_tokens elapsed).

End ClientBehaviour.

(** ** What a computation may change *)

(** [frame_on l w w']: between [w] and [w'] no list object other than
    the one at [l] changed, no list object was created, every logged
    mutation is one of [l], and the configuration, the files and the
    console input are as they were. *)
Definition frame_on (l : loc) (w w' : World) : Prop :=
  app_state w' = app_state w /\
  length (heap w') = length (heap w) /\
  files w' = files w /\
  stdin w' = stdin w /\
  (forall l', l' <> l -> deref w' l' = deref w l') /\
  exists new, writes w' = (writes w ++ new)%list /\
              Forall (fun wr => w_loc wr = l) new.

(** What reading from the console may change: the pending input and the
    files; the heap, its mutation trace, the requests and the sleeps stay
    as they are. *)
Definition console_only (w w' : World) : Prop :=
  app_state w' = app_state w /\ heap w' = heap w /\ writes w' = writes w /\
  requests w' = requests w /\ sleeps w' = sleeps w.

(** Requests are only ever added at the end of the log. *)
Definition requests_extend (w w' : World) : Prop :=
  exists more, requests w' = (requests w ++ more)%list.

(** ** How the persisted history evolves *)

(** One legal change of the history: a user or assistant message is
    appended at the end, or the item at index 0 is removed.  Either way
    the items that stay keep their order and their contents. *)
Definition history_step (before after : list Message) : Prop :=
  (exists m, (role m = user \/ role m = assistant) /\
             after = (before ++ [m])%list) \/
  (exists m, before = m :: after).

(** [history_trace l items ws items']: replaying the logged mutations
    [ws] from a list object at [l] holding [items] ends with [items'];
    every mutation of [l] starts from what the previous one left and is
    a legal change. *)
Inductive history_trace (l : loc)
  : list Message -> list Write -> list Message -> Prop :=
| trace_done items : history_trace l items [] items
| trace_other items wr ws items' :
    w_loc wr <> l ->
    history_trace l items ws items' ->
    history_trace l items (wr :: ws) items'
| trace_step items wr ws items' :
    w_loc wr = l ->
    w_before wr = items ->
    history_step items (w_after wr) ->
    history_trace l (w_after wr) ws items' ->
    history_trace l items (wr :: ws) items'.

(** The reference in [ALL_MESSAGES] points to a list object. *)
Definition history_allocated (w : World) : Prop :=
  (ALL_MESSAGES (app_state w) < length (heap w))%nat.

(** [evolves w w']: from [w] to [w'] the configuration is unchanged, no
    list object disappeared, and the mutations logged in between replay
    the history legally from its items in [w] to its items in [w']. *)
Definition evolves (w w' : World) : Prop :=
  history_allocated w ->
  app_state w' = app_state w /\
  (length (heap w) <= length (heap w'))%nat /\
  exists new,
    writes w' = (writes w ++ new)%list /\
    history_trace (ALL_MESSAGES (app_state w))
      (deref w (ALL_MESSAGES (app_state w))) new
      (deref w' (ALL_MESSAGES (app_state w))).

(** ** Strings *)

(** Every character of [s] satisfies [p]. *)
Fixpoint all_chars (p : ascii -> bool) (s : string) : bool :=
  match s with
  | EmptyString => true
  | String c rest => p c && all_chars p rest
  end.

(** ** Scenarios *)

(** The world when [main] starts: [AppState.__init__] has set the budget
    to 7500 and created the empty history list. *)
Definition initial_world (fs : gmap string string) (typed : list string) : World :=
  mkWorld (mkAppState 7500 0%nat) [[]] fs typed [] [] [].

(** The files of the end-to-end scenarios. *)
Definition scenario_files : gmap string string :=
  {[ "key_openai.txt" := "sk-0000";
     "system_message.txt" := "You are helpful. <<CODE>>";
     "scratchpad.txt" := "" ]}.

(** ["\r"] *)
Definition CR : string := String "013"%char EmptyString.

(** A template and a scratchpad stored with carriage returns: the
    template has a line ending CR LF before the placeholder and a lone
    CR behind it, the scratchpad ends in CR LF. *)
Definition stored_with_carriage_returns : gmap string string :=
  {[ "key_openai.txt" := "sk-0000";
     "system_message.txt" :=
       "You are helpful." +:+ CR +:+ PyStr.NL +:+ "<<CODE>>" +:+ CR +:+ "Bye";
     "scratchpad.txt" := "x = 1" +:+ CR +:+ PyStr.NL ]}.

(** An error text of the kind the service gives for an oversized
    request. *)
Definition context_length_reply : string :=
  "This model's maximum context length is 8192 tokens.".

(** Fails with a context-length error on its first [N] calls, then
    completes. *)
Definition shrinking_client (N : nat)
  : list (list Message) -> list Message -> Reply unit :=
  fun log _ =>
    if (length log <? N)%nat then Failed context_length_reply
    else Completed "ok" 42 tt.

(** Fails with a context-length error on every call. *)
Definition overflowing_client : list (list Message) -> list Message -> Reply unit :=
  fun _ _ => Failed context_length_reply.

(** Fails with another error on every call. *)
Definition unavailable_client : list (list Message) -> list Message -> Reply unit :=
  fun _ _ => Failed "Service unavailable".

(** One context-length failure, then only other failures. *)
Definition shrink_once_client : list (list Message) -> list Message -> Reply unit :=
  fun log _ =>
    if (length log <? 1)%nat then Failed context_length_reply
    else Failed "Service unavailable".

(** [n] user messages numbered from the oldest. *)
Definition numbered_messages (n : nat) : list Message :=
  (fun k => mkMessage user (String (ascii_of_nat (48 + k)) EmptyString)) <$> seq 0 n.

(** A world whose history holds [h] and where an envelope [e] has been
    built at reference 1. *)
Definition exchange_world (h e : list Message) : World :=
  mkWorld (mkAppState 7500 0%nat) [h; e] scenario_files [] [] [] [].

(** ** Vocabulary of the further properties *)

(** A text without carriage return: what [open_file] reads back is the
    text [save_file] wrote (in text mode a carriage return is read back
    as a newline). *)
Definition no_carriage_return (s : string) : bool :=
  negb (PyStr.contains (String "013"%char EmptyString) s).

(** The world once the line [text] has been read at the prompt and the
    user's message has been appended to the history. *)
Definition after_user_message (text : string) (rest : list string) (w : World)
  : World :=
  snd (list_append (ALL_MESSAGES (app_state w)) (mkMessage user text)
         (with_stdin rest w)).

(** The loop has used its passes without ending ([main_loop]'s [Ret]). *)
Definition still_running {A : Type} (o : outcome A) : bool :=
  match o with
  | Ret _ => true
  | _ => false
  end.

(** The seconds of backoff after a failure in pass [retry]. *)
Definition backoff (retry : nat) : Z := 2 ^ Z.of_nat retry * 5.

(** The sum of a list of durations. *)
Definition total (durations : list Z) : Z := foldr Z.add 0 durations.

(** A decimal digit. *)
Definition is_digit (c : ascii) : bool :=
  let n := nat_of_ascii c in ((48 <=? n) && (n <=? 57))%nat.

(** The shape of [strftime("%Y%m%d_%H%M%S")] for a four-digit year:
    eight digits, an underscore, six digits. *)
Definition is_timestamp (s : string) : bool :=
  match list_ascii_of_string s with
  | [y1; y2; y3; y4; m1; m2; d1; d2; u; h1; h2; n1; n2; s1; s2] =>
      forallb is_digit [y1; y2; y3; y4; m1; m2; d1; d2; h1; h2; n1; n2; s1; s2]
      && Ascii.eqb u "_"%char
  | _ => false
  end.

(** A file-name part the log file can be created with: at most 200
    characters, each printable ASCII and none a slash (a slash would
    name a directory below [log/openai], which nothing creates). *)
Definition plain_suffix (s : string) : bool :=
  (String.length s <=? 200)%nat &&
  all_chars (fun c => let n := nat_of_ascii c in
                      (32 <=? n) && (n <=? 126) && negb (n =? 47))%nat s.

(** * Lemmas *)

(** ** The string operations meet their Python descriptions *)

Section PyStrFacts.

Implicit Types (s t needle hay : string) (p : ascii -> bool).

Lemma prefix_of_append needle t : String.prefix needle (needle +:+ t) = true.
Proof.
  induction needle as [|c needle IH]; simpl; [by destruct t|].
  destruct (ascii_dec c c); [exact IH|done].
Qed.

Lemma prefix_is_append needle : forall hay,
  String.prefix needle hay = true -> exists t, hay = needle +:+ t.
Proof.
  induction needle as [|c needle IH]; intros hay Hp; [by exists hay|].
  destruct hay as [|d hay]; cbn in Hp; [done|].
  destruct (ascii_dec c d) as [->|]; [|done].
  destruct (IH hay Hp) as [t ->]. by exists t.
Qed.

Lemma contains_prefix needle hay :
  String.prefix needle hay = true -> PyStr.contains needle hay = true.
Proof. intros Hp. destruct hay; cbn [PyStr.contains]; by rewrite Hp. Qed.

(** [needle in hay] holds exactly when [hay] is some text, then
    [needle], then some text. *)
Lemma contains_iff needle hay :
  PyStr.contains needle hay = true <->
  exists before after, hay = before +:+ needle +:+ after.
Proof.
  split.
  - induction hay as [|c hay IH]; cbn [PyStr.contains]; intros Hc.
    + apply orb_true_iff in Hc as [Hp|]; [|done].
      apply prefix_is_append in Hp as [t Ht]. by exists EmptyString, t.
    + apply orb_true_iff in Hc as [Hp|Hrest].
      * apply prefix_is_append in Hp as [t Ht]. by exists EmptyString, t.
      * destruct (IH Hrest) as (before & after & ->).
        by exists (String c before), after.
  - intros (before & after & ->).
    induction before as [|c before IH].
    + change (PyStr.contains needle (needle +:+ after) = true).
      apply contains_prefix, prefix_of_append.
    + change (PyStr.contains needle
                (String c (before +:+ needle +:+ after)) = true).
      cbn [PyStr.contains]. rewrite IH. apply orb_true_r.
Qed.





(** A text without any occurrence of [old] is left as it is. *)
Lemma replace_scan_absent old new s :
  PyStr.contains old s = false -> PyStr.replace_scan old new s 0 = s.
Proof.
  induction s as [|c s IH]; [done|].
  cbn [PyStr.contains PyStr.replace_scan].
  intros [Hp Hrest]%orb_false_iff. rewrite Hp. by rewrite IH.
Qed.

Lemma string_length_app s t :
  String.length (s +:+ t) = (String.length s + String.length t)%nat.
Proof.
  induction s as [|c s IH]; [done|].
  change (S (String.length (s +:+ t)) = S (String.length s + String.length t)).
  by rewrite IH.
Qed.

Lemma string_app_assoc s1 s2 s3 : (s1 +:+ s2) +:+ s3 = s1 +:+ (s2 +:+ s3).
Proof.
  induction s1 as [|c s1 IH]; [done|].
  change (String c ((s1 +:+ s2) +:+ s3) = String c (s1 +:+ (s2 +:+ s3))).
  by f_equal.
Qed.

(** A prefix of a text put before another is a prefix of the first
    text when it is no longer than it. *)
Lemma prefix_app_shorter s : forall t rest,
  String.prefix s (t +:+ rest) = true ->
  (String.length s <= String.length t)%nat ->
  String.prefix s t = true.
Proof.
  induction s as [|c s IH]; intros t rest Hp Hlen; [by destruct t|].
  destruct t as [|d t]; [cbn in Hlen; lia|].
  change (String.prefix (String c s) (String d (t +:+ rest)) = true) in Hp.
  cbn [String.prefix] in *.
  destruct (ascii_dec c d); [|done].
  apply (IH t rest Hp). cbn in Hlen. lia.
Qed.

(** Passing over the rest of a match. *)
Lemma replace_scan_skip old new t : forall rest,
  PyStr.replace_scan old new (t +:+ rest) (String.length t) =
  PyStr.replace_scan old new rest 0.
Proof.
  induction t as [|c t IH]; intros rest; [done|].
  change (PyStr.replace_scan old new (String c (t +:+ rest))
            (S (String.length t)) =
          PyStr.replace_scan old new rest 0).
  cbn [PyStr.replace_scan]. apply IH.
Qed.

(** The leftmost occurrence is replaced, and the scan goes on behind
    it.  [old] is [init] followed by the character [z]; that no
    occurrence begins inside [before] is to say that none lies in
    [before] followed by [init]. *)
Lemma replace_scan_leftmost init z new before rest :
  let old := init +:+ String z EmptyString in
  PyStr.contains old (before +:+ init) = false ->
  PyStr.replace_scan old new (before +:+ old +:+ rest) 0 =
  before +:+ new +:+ PyStr.replace_scan old new rest 0.
Proof.
  cbv zeta. remember (init +:+ String z EmptyString) as old eqn:Hdef.
  induction before as [|c before IH]; intros Habsent.
  - assert (Hold : exists d t, old = String d t).
    { subst old. destruct init as [|d init]; [by exists z, EmptyString|].
      by exists d, (init +:+ String z EmptyString). }
    destruct Hold as (d & t & Hold).
    assert (Hform : old +:+ rest = String d (t +:+ rest)) by (by rewrite Hold).
    assert (Hp : String.prefix old (String d (t +:+ rest)) = true)
      by (rewrite <- Hform; apply prefix_of_append).
    assert (Hlen : Nat.pred (String.length old) = String.length t)
      by (by rewrite Hold).
    change (PyStr.replace_scan old new (old +:+ rest) 0 =
            new +:+ PyStr.replace_scan old new rest 0).
    rewrite Hform. cbn [PyStr.replace_scan]. rewrite Hp, Hlen.
    by rewrite replace_scan_skip.
  - change (PyStr.contains old (String c (before +:+ init)) = false) in Habsent.
    cbn [PyStr.contains] in Habsent.
    apply orb_false_iff in Habsent as [Hhead Htail].
    change (PyStr.replace_scan old new
              (String c (before +:+ old +:+ rest)) 0 =
            String c (before +:+ new +:+ PyStr.replace_scan old new rest 0)).
    cbn [PyStr.replace_scan].
    destruct (String.prefix old (String c (before +:+ old +:+ rest))) eqn:Hp.
    + exfalso.
      assert (Hsplit : String c (before +:+ old +:+ rest) =
                       String c (before +:+ init) +:+ (String z rest)).
      { change (String c (before +:+ old +:+ rest) =
                String c ((before +:+ init) +:+ String z rest)).
        f_equal. rewrite Hdef.
        rewrite !string_app_assoc. reflexivity. }
      rewrite Hsplit in Hp.
      apply prefix_app_shorter in Hp; [congruence|].
      rewrite Hdef. cbn [String.length].
      rewrite !string_length_app. cbn. lia.
    + f_equal. by apply IH.
Qed.

(** A text without carriage return is read as it is stored. *)
Lemma universal_newlines_plain s :
  no_carriage_return s = true -> universal_newlines s = s.
Proof.
  unfold no_carriage_return. rewrite negb_true_iff.
  induction s as [|c s IH]; [done|].
  cbn [PyStr.contains String.prefix universal_newlines].
  intros [Hhead Htail]%orb_false_iff.
  destruct (Ascii.eqb_spec c "013"%char) as [->|Hne].
  - exfalso. revert Hhead. by destruct s.
  - by rewrite IH.
Qed.


End PyStrFacts.

Example replace_placeholder_twice :
  PyStr.replace "<<CODE>>" "xy" "a<<CODE>><<CODE>>b<<<CODE>>" = "axyxyb<xy".
Proof. reflexivity. Qed.

Example replace_leftmost_first : PyStr.replace "aa" "b" "aaaaa" = "bba".
Proof. reflexivity. Qed.

Example strip_chars_then_strip :
  PyStr.strip (PyStr.strip_chars "END" "END of  " ) = "of".
Proof. reflexivity. Qed.

(** ** Basic facts about the heap *)

Section HeapFacts.

Implicit Types (w : World) (l : loc) (items : list Message).

(** Only a list object that exists has items. *)
Lemma deref_nonempty_valid w l :
  deref w l <> [] -> (l < length (heap w))%nat.
Proof.
  unfold deref. intros Hne.
  destruct (decide (l < length (heap w))%nat) as [|Hge]; [done|].
  exfalso. apply Hne.
  rewrite list_lookup_total_alt, lookup_ge_None_2 by lia. done.
Qed.

Lemma deref_store_eq w l items :
  (l < length (heap w))%nat ->
  deref (snd (store l items w)) l = items.
Proof. intros Hl. unfold deref; simpl. by apply list_lookup_total_insert_eq. Qed.

Lemma deref_store_ne w l l' items :
  l <> l' -> deref (snd (store l items w)) l' = deref w l'.
Proof. intros Hne. unfold deref; simpl. by apply list_lookup_total_insert_ne. Qed.

Lemma heap_length_store w l items :
  length (heap (snd (store l items w))) = length (heap w).
Proof. simpl. apply length_insert. Qed.

(** [pop(0)] on a list object that holds [m :: rest]. *)
Lemma list_pop_cons w l m rest :
  deref w l = m :: rest ->
  list_pop l 0 w = (Ret m, snd (store l rest w)).
Proof. intros Hd. unfold list_pop, bind, ret. rewrite Hd. reflexivity. Qed.

(** [pop(0)] on an empty list raises and changes nothing. *)
Lemma list_pop_nil w l :
  deref w l = [] -> list_pop l 0 w = (Raise IndexError, w).
Proof. intros Hd. unfold list_pop. rewrite Hd. reflexivity. Qed.

End HeapFacts.

(** ** One attempt of the retry loop *)

Section Attempt.

Context {duration : Type}.
Variable client : list (list Message) -> list Message -> Reply duration.

Implicit Types (w : World) (conversation : loc) (retry : nat).

Lemma get_response_completed conversation w text total_tokens elapsed :
  client (requests w) (deref w conversation) = Completed text total_tokens elapsed ->
  get_response duration client conversation w =
    (Ret (text, total_tokens, elapsed), sent conversation w).
Proof. intros Hc. unfold get_response. rewrite Hc. reflexivity. Qed.

Lemma get_response_failed conversation w msg :
  client (requests w) (deref w conversation) = Failed msg ->
  get_response duration client conversation w =
    (Raise (APIError msg), sent conversation w).
Proof. intros Hc. unfold get_response. rewrite Hc. reflexivity. Qed.

Lemma handle_error_other conversation w msg :
  context_length_error msg = false ->
  handle_error (APIError msg) conversation w = (Ret (false, conversation), w).
Proof.
  intros Hmsg. unfold handle_error. cbn [exn_str].
  fold (context_length_error msg). rewrite Hmsg. reflexivity.
Qed.

Lemma handle_error_shrink conversation w msg m rest :
  context_length_error msg = true ->
  deref w conversation = m :: rest ->
  handle_error (APIError msg) conversation w =
    (Ret (true, conversation), snd (store conversation rest w)).
Proof.
  intros Hmsg Hd. unfold handle_error. cbn [exn_str].
  fold (context_length_error msg). rewrite Hmsg.
  unfold bind. rewrite (list_pop_cons w conversation m rest Hd). reflexivity.
Qed.

Lemma handle_error_empty conversation w msg :
  context_length_error msg = true ->
  deref w conversation = [] ->
  handle_error (APIError msg) conversation w = (Raise IndexError, w).
Proof.
  intros Hmsg Hd. unfold handle_error. cbn [exn_str].
  fold (context_length_error msg). rewrite Hmsg.
  unfold bind. rewrite (list_pop_nil w conversation Hd). reflexivity.
Qed.

(** The service completes: the function returns from inside the [try]. *)
Lemma attempt_completed retry conversation w text total_tokens elapsed :
  client (requests w) (deref w conversation) = Completed text total_tokens elapsed ->
  attempt duration client retry conversation w =
    (Ret (Some (text, total_tokens, elapsed), conversation), sent conversation w).
Proof.
  intros Hc. unfold attempt, try_except, bind.
  rewrite (get_response_completed _ _ _ _ _ Hc). reflexivity.
Qed.

(** Any failure that is not a context-length one: sleep, then go on. *)
Lemma attempt_backoff retry conversation w msg :
  client (requests w) (deref w conversation) = Failed msg ->
  context_length_error msg = false ->
  attempt duration client retry conversation w =
    (Ret (None, conversation),
     with_sleeps (sleeps w ++ [2 ^ Z.of_nat retry * 5]) (sent conversation w)).
Proof.
  intros Hc Hmsg. unfold attempt, try_except, bind.
  rewrite (get_response_failed _ _ _ Hc), (handle_error_other _ _ _ Hmsg).
  reflexivity.
Qed.

(** A context-length failure on a non-empty envelope: the front item
    is removed from the envelope's list object, nothing else happens. *)
Lemma attempt_shrink retry conversation w msg m rest :
  client (requests w) (deref w conversation) = Failed msg ->
  context_length_error msg = true ->
  deref w conversation = m :: rest ->
  attempt duration client retry conversation w =
    (Ret (None, conversation), snd (store conversation rest (sent conversation w))).
Proof.
  intros Hc Hmsg Hd. unfold attempt, try_except, bind.
  rewrite (get_response_failed _ _ _ Hc).
  rewrite (handle_error_shrink conversation (sent conversation w) msg m rest Hmsg Hd).
  reflexivity.
Qed.

(** A context-length failure on an empty envelope: [pop(0)] raises
    inside the handler, and the exception leaves the function. *)
Lemma attempt_index_error retry conversation w msg :
  client (requests w) (deref w conversation) = Failed msg ->
  context_length_error msg = true ->
  deref w conversation = [] ->
  attempt duration client retry conversation w =
    (Raise IndexError, sent conversation w).
Proof.
  intros Hc Hmsg Hd. unfold attempt, try_except, bind.
  rewrite (get_response_failed _ _ _ Hc).
  rewrite (handle_error_empty conversation (sent conversation w) msg Hmsg Hd).
  reflexivity.
Qed.

End Attempt.

(** ** The retry loop *)

Lemma world_eta (w : World) :
  mkWorld (app_state w) (heap w) (files w) (stdin w) (requests w) (sleeps w)
    (writes w) = w.
Proof. by destruct w. Qed.

Section RetryLoop.

Context {duration : Type}.
Variable client : list (list Message) -> list Message -> Reply duration.

Implicit Types (w : World) (conversation : loc) (retries : list nat).

Lemma retry_loop_backoff retries conversation w :
  always_fails_otherwise client ->
  retry_loop duration client retries conversation w =
    (Exit 1,
     with_sleeps (sleeps w ++ ((fun retry => 2 ^ Z.of_nat retry * 5) <$> retries))
       (with_requests
          (requests w ++ replicate (length retries) (deref w conversation)) w)).
Proof.
  intros Hfail. revert w.
  induction retries as [|retry rest IH]; intros w.
  - cbn. unfold exit, with_sleeps, with_requests; cbn.
    by rewrite !app_nil_r, world_eta.
  - cbn [retry_loop]. unfold bind.
    destruct (Hfail (requests w) (deref w conversation)) as (msg & Hc & Hmsg).
    rewrite (attempt_backoff client retry conversation w msg Hc Hmsg).
    rewrite IH. f_equal.
    unfold with_sleeps, with_requests, sent, deref; cbn.
    rewrite <- !app_assoc. reflexivity.
Qed.

End RetryLoop.

(** ** What an exchange may touch *)

Lemma frame_on_refl l w : frame_on l w w.
Proof.
  repeat split; try done. exists []. by rewrite app_nil_r.
Qed.

Lemma frame_on_trans l w1 w2 w3 :
  frame_on l w1 w2 -> frame_on l w2 w3 -> frame_on l w1 w3.
Proof.
  intros (Ha & Hh & Hf & Hi & Hd & new1 & Hw1 & Hn1)
         (Ha' & Hh' & Hf' & Hi' & Hd' & new2 & Hw2 & Hn2).
  repeat split; try congruence.
  - intros l' Hne. rewrite Hd', Hd by done. done.
  - exists (new1 ++ new2)%list. split.
    + by rewrite Hw2, Hw1, app_assoc.
    + by apply Forall_app.
Qed.

Lemma frame_on_sent l w : frame_on l w (sent l w).
Proof.
  repeat split; try done. exists []. cbn. by rewrite app_nil_r.
Qed.

Lemma frame_on_sleep l w seconds : frame_on l w (snd (sleep seconds w)).
Proof.
  repeat split; try done. exists []. cbn. by rewrite app_nil_r.
Qed.

Lemma frame_on_store l w items : frame_on l w (snd (store l items w)).
Proof.
  repeat split; try done.
  - cbn. apply length_insert.
  - intros l' Hne. by apply deref_store_ne.
  - eexists. split; [reflexivity|]. by repeat constructor.
Qed.

Section ExchangeFrame.

Context {duration : Type}.
Variable client : list (list Message) -> list Message -> Reply duration.

Implicit Types (w : World) (conversation : loc) (retries : list nat).

(** One pass touches the envelope's list object only, and hands the
    same reference on to the next pass. *)
Lemma attempt_frame retry conversation w :
  frame_on conversation w (snd (attempt duration client retry conversation w)) /\
  forall pass c,
    fst (attempt duration client retry conversation w) = Ret (pass, c) ->
    c = conversation.
Proof.
  destruct (client (requests w) (deref w conversation))
    as [text total_tokens elapsed|msg] eqn:Hc.
  - rewrite (attempt_completed client retry conversation w _ _ _ Hc).
    split; [apply frame_on_sent|]. cbn. congruence.
  - destruct (context_length_error msg) eqn:Hmsg.
    + destruct (deref w conversation) as [|m rest] eqn:Hd.
      * rewrite (attempt_index_error client retry conversation w msg) by
          (rewrite ?Hd; done).
        split; [apply frame_on_sent|]. cbn. congruence.
      * rewrite (attempt_shrink client retry conversation w msg m rest) by
          (rewrite ?Hd; done).
        split; [|cbn; congruence].
        eapply frame_on_trans; [apply frame_on_sent|apply frame_on_store].
    + rewrite (attempt_backoff client retry conversation w msg) by
        (rewrite ?Hd; done).
      split; [|cbn; congruence].
      eapply frame_on_trans; [apply frame_on_sent|].
      apply (frame_on_sleep conversation (sent conversation w)).
Qed.

Lemma retry_loop_frame retries conversation w :
  frame_on conversation w (snd (retry_loop duration client retries conversation w)).
Proof.
  revert w. induction retries as [|retry rest IH]; intros w.
  - apply frame_on_refl.
  - cbn [retry_loop]. unfold bind.
    destruct (attempt_frame retry conversation w) as [Hframe Hsame].
    destruct (attempt duration client retry conversation w) as [[[pass c]|e|code] w1];
      cbn [fst snd] in *; try done.
    specialize (Hsame pass c eq_refl) as ->.
    destruct pass as [r|]; [done|].
    eapply frame_on_trans; [exact Hframe|apply IH].
Qed.

Lemma exchange_frame conversation w :
  frame_on conversation w
    (snd (do_chatbot_conversation_exchange duration client conversation w)).
Proof. apply retry_loop_frame. Qed.

(** An exception that leaves the exchange is the [IndexError] of
    [pop(0)], and the only exit status is 1. *)
Lemma retry_loop_outcome retries conversation w :
  match fst (retry_loop duration client retries conversation w) with
  | Ret _ => True
  | Raise e => e = IndexError
  | Exit code => code = 1
  end.
Proof.
  revert w. induction retries as [|retry more IH]; intros w.
  - done.
  - cbn [retry_loop]. unfold bind.
    destruct (attempt_frame retry conversation w) as [_ Hsame].
    destruct (client (requests w) (deref w conversation))
      as [text total_tokens elapsed|msg] eqn:Hc.
    + by rewrite (attempt_completed client retry conversation w _ _ _ Hc).
    + destruct (context_length_error msg) eqn:Hmsg.
      * destruct (deref w conversation) as [|m rest] eqn:Hd.
        -- rewrite (attempt_index_error client retry conversation w msg) by
             (rewrite ?Hd; done).
           done.
        -- rewrite (attempt_shrink client retry conversation w msg m rest) by
             (rewrite ?Hd; done).
           apply IH.
      * rewrite (attempt_backoff client retry conversation w msg) by
          (rewrite ?Hd; done).
        apply IH.
Qed.

End ExchangeFrame.

(** ** Context-length failures *)

Section Shrink.

Context {duration : Type}.
Variable client : list (list Message) -> list Message -> Reply duration.

Implicit Types (w : World) (conversation : loc) (retries : list nat).

Lemma shrinking_envelopes_cons m rest N :
  shrinking_envelopes (m :: rest) (S N) =
  (m :: rest) :: shrinking_envelopes rest N.
Proof.
  unfold shrinking_envelopes.
  change (seq 0 (S (S N))) with (0%nat :: seq 1 (S N)).
  rewrite <- fmap_S_seq, fmap_cons, <- list_fmap_compose. reflexivity.
Qed.

Lemma shrinking_envelopes_last envelope N :
  last (shrinking_envelopes envelope N) = Some (drop N envelope).
Proof.
  unfold shrinking_envelopes. rewrite seq_S, fmap_app. cbn.
  by rewrite last_snoc.
Qed.

Lemma retry_loop_shrink N :
  forall retries conversation w text total_tokens elapsed,
    (N < length retries)%nat ->
    (N <= length (deref w conversation))%nat ->
    fails_then_completes client (length (requests w)) N text total_tokens elapsed ->
    exists w',
      retry_loop duration client retries conversation w =
        (Ret (text, total_tokens, elapsed), w') /\
      sleeps w' = sleeps w /\
      requests w' =
        (requests w ++ shrinking_envelopes (deref w conversation) N)%list /\
      deref w' conversation = drop N (deref w conversation).
Proof.
  induction N as [|N IH];
    intros retries conversation w text total_tokens elapsed Hlen Henv [Hfail Hok];
    destruct retries as [|retry rest]; cbn [length] in Hlen; try lia;
    cbn [retry_loop]; unfold bind.
  - rewrite (attempt_completed client retry conversation w text total_tokens elapsed)
      by (apply Hok; lia).
    eexists. split; [reflexivity|]. done.
  - destruct (Hfail (requests w) (deref w conversation)) as (msg & Hc & Hmsg);
      [lia|].
    destruct (deref w conversation) as [|m items] eqn:Hd; cbn [length] in Henv;
      [lia|].
    rewrite (attempt_shrink client retry conversation w msg m items) by
      (rewrite ?Hd; done).
    set (w1 := snd (store conversation items (sent conversation w))).
    assert (Hvalid : (conversation < length (heap w))%nat).
    { apply deref_nonempty_valid. by rewrite Hd. }
    assert (Hd1 : deref w1 conversation = items).
    { apply (deref_store_eq (sent conversation w)). exact Hvalid. }
    assert (Hreq1 : requests w1 = (requests w ++ [m :: items])%list).
    { subst w1. cbn. by rewrite Hd. }
    destruct (IH rest conversation w1 text total_tokens elapsed)
      as (w' & Hrun & Hsl & Hreq & Hconv).
    + lia.
    + rewrite Hd1. lia.
    + rewrite Hreq1, length_app. cbn [length]. split.
      * intros log envelope Hrange. apply Hfail. lia.
      * intros log envelope Hrange. apply Hok. lia.
    + exists w'. split; [exact Hrun|]. repeat split.
      * by rewrite Hsl.
      * rewrite Hreq, Hreq1, Hd1, shrinking_envelopes_cons, <- app_assoc.
        reflexivity.
      * by rewrite Hconv, Hd1.
Qed.

Lemma retry_loop_exhausted retries conversation w :
  always_fails client ->
  fst (retry_loop duration client retries conversation w) = Exit 1 /\
  length (requests (snd (retry_loop duration client retries conversation w))) =
    (length (requests w) + length retries)%nat.
Proof.
  intros Hfail. revert w. induction retries as [|retry more IH]; intros w.
  - cbn. split; [done|lia].
  - cbn [retry_loop length]. unfold bind.
    destruct (Hfail (requests w) (deref w conversation)) as (msg & Hc & Hne).
    destruct (context_length_error msg) eqn:Hmsg.
    + destruct (deref w conversation) as [|m items] eqn:Hd;
        [by specialize (Hne eq_refl)|].
      rewrite (attempt_shrink client retry conversation w msg m items) by
        (rewrite ?Hd; done).
      destruct (IH (snd (store conversation items (sent conversation w))))
        as [Hout Hreq].
      split; [exact Hout|]. rewrite Hreq. cbn. rewrite length_app. cbn. lia.
    + rewrite (attempt_backoff client retry conversation w msg) by done.
      destruct (IH (with_sleeps (sleeps w ++ [2 ^ Z.of_nat retry * 5])
                      (sent conversation w))) as [Hout Hreq].
      split; [exact Hout|]. rewrite Hreq. cbn. rewrite length_app. cbn. lia.
Qed.

(** When every call fails with a context-length error and the envelope
    has fewer items than there are passes left, the items run out and
    the [IndexError] of [pop(0)] leaves the loop. *)
Lemma retry_loop_overflow retries :
  forall conversation w,
    always_overflows client ->
    (length (deref w conversation) < length retries)%nat ->
    fst (retry_loop duration client retries conversation w) = Raise IndexError /\
    sleeps (snd (retry_loop duration client retries conversation w)) = sleeps w.
Proof.
  induction retries as [|retry more IH]; intros conversation w Hover Hlen;
    cbn [length] in Hlen; [lia|].
  cbn [retry_loop]. unfold bind.
  destruct (Hover (requests w) (deref w conversation)) as (msg & Hc & Hmsg).
  destruct (deref w conversation) as [|m items] eqn:Hd.
  - rewrite (attempt_index_error client retry conversation w msg) by
      (rewrite ?Hd; done).
    done.
  - rewrite (attempt_shrink client retry conversation w msg m items) by
      (rewrite ?Hd; done).
    assert (Hvalid : (conversation < length (heap w))%nat).
    { apply deref_nonempty_valid. by rewrite Hd. }
    destruct (IH conversation
                (snd (store conversation items (sent conversation w))) Hover)
      as [Hout Hsl].
    + rewrite (deref_store_eq (sent conversation w)) by exact Hvalid.
      cbn [length] in Hlen. lia.
    + split; [exact Hout|]. by rewrite Hsl.
Qed.

End Shrink.

(** ** Console input *)

Section Console.

Implicit Types (w : World) (lines : list string).

Lemma console_only_refl w : console_only w w.
Proof. done. Qed.

Lemma console_only_trans w1 w2 w3 :
  console_only w1 w2 -> console_only w2 w3 -> console_only w1 w3.
Proof. unfold console_only. intuition congruence. Qed.

Lemma input_cons w line rest :
  stdin w = line :: rest -> input w = (Ret line, with_stdin rest w).
Proof. intros Hin. unfold input. by rewrite Hin. Qed.

Lemma input_console w : console_only w (snd (input w)).
Proof. unfold input. by destruct (stdin w). Qed.

(** The lines typed before the first [END] are collected in order, and
    the input after that [END] is left for later. *)
Lemma multi_line_loop_collects lines :
  forall fuel collected rest w,
    Forall (fun line => line <> "END") lines ->
    stdin w = (lines ++ "END" :: rest)%list ->
    (length (stdin w) < fuel)%nat ->
    multi_line_loop fuel collected w =
      (Ret (collected ++ lines)%list, with_stdin rest w).
Proof.
  induction lines as [|line more IH]; intros fuel collected rest w Hno Hin Hfuel;
    (destruct fuel as [|fuel]; [lia|]); cbn [multi_line_loop]; unfold bind.
  - rewrite (input_cons w "END" rest Hin). cbn. by rewrite app_nil_r.
  - rewrite (input_cons w line (more ++ "END" :: rest) Hin).
    apply Forall_cons in Hno as [Hline Hmore].
    apply String.eqb_neq in Hline. rewrite Hline.
    rewrite (IH fuel (collected ++ [line])%list rest); cbn; try done.
    + by rewrite <- app_assoc.
    + rewrite Hin in Hfuel. cbn in Hfuel. lia.
Qed.

(** The budget of rounds does not matter once it exceeds the number of
    lines left: the loop ends by [END] or by [EOFError] before. *)
Lemma multi_line_loop_fuel fuel :
  forall fuel' collected w,
    (length (stdin w) < fuel)%nat -> (length (stdin w) < fuel')%nat ->
    multi_line_loop fuel collected w = multi_line_loop fuel' collected w.
Proof.
  induction fuel as [|fuel IH]; intros [|fuel'] collected w Hf Hf'; try lia.
  cbn [multi_line_loop]. unfold bind, input.
  destruct (stdin w) as [|line rest] eqn:Hin; [done|].
  destruct (String.eqb line "END"); [done|].
  cbn [length] in Hf, Hf'. apply IH; cbn; lia.
Qed.

Lemma multi_line_loop_console fuel :
  forall collected w, console_only w (snd (multi_line_loop fuel collected w)).
Proof.
  induction fuel as [|fuel IH]; intros collected w; [done|].
  cbn [multi_line_loop]. unfold bind.
  pose proof (input_console w) as Hin.
  destruct (input w) as [[line|e|code] w1]; cbn [snd] in *; try done.
  destruct (String.eqb line "END"); [done|].
  eapply console_only_trans; [exact Hin|apply IH].
Qed.

Lemma multi_line_input_collects lines rest w :
  Forall (fun line => line <> "END") lines ->
  stdin w = (lines ++ "END" :: rest)%list ->
  multi_line_input w = (Ret (PyStr.join PyStr.NL lines), with_stdin rest w).
Proof.
  intros Hno Hin. unfold multi_line_input, bind.
  rewrite (multi_line_loop_collects lines _ [] rest w Hno Hin) by lia.
  reflexivity.
Qed.

Lemma multi_line_input_console w : console_only w (snd (multi_line_input w)).
Proof.
  unfold multi_line_input, bind.
  pose proof (multi_line_loop_console (S (length (stdin w))) [] w) as Hloop.
  by destruct (multi_line_loop _ _ w) as [[lines|e|code] w1].
Qed.

(** The sentinel at the main prompt. *)
Lemma get_user_input_end w rest :
  stdin w = "END" :: rest ->
  get_user_input w = (Exit 0, with_stdin rest w).
Proof.
  intros Hin. unfold get_user_input, bind.
  by rewrite (input_cons w "END" rest Hin).
Qed.

(** The scratchpad keyword followed by a block that ends in [END]. *)
Lemma get_user_input_scratchpad w keyword lines rest :
  keyword = "SCRATCHPAD" \/ keyword = "M" ->
  Forall (fun line => line <> "END") lines ->
  stdin w = (keyword :: lines ++ "END" :: rest)%list ->
  get_user_input w =
    (Ret None,
     with_files
       (<["scratchpad.txt" :=
            PyStr.strip (PyStr.strip_chars "END" (PyStr.join PyStr.NL lines))]>
          (files w))
       (with_stdin rest w)).
Proof.
  intros Hkey Hno Hin. unfold get_user_input, bind.
  rewrite (input_cons w keyword _ Hin).
  assert (String.eqb "END" keyword = false) as ->
    by (destruct Hkey as [-> | ->]; reflexivity).
  assert (String.eqb "SCRATCHPAD" keyword || String.eqb "M" keyword = true) as ->
    by (destruct Hkey as [-> | ->]; reflexivity).
  rewrite (multi_line_input_collects lines rest (with_stdin _ w) Hno) by done.
  reflexivity.
Qed.

(** Any other line is the user's turn. *)
Lemma get_user_input_text w text rest :
  text <> "END" -> text <> "SCRATCHPAD" -> text <> "M" ->
  stdin w = text :: rest ->
  get_user_input w = (Ret (Some text), with_stdin rest w).
Proof.
  intros H1 H2 H3 Hin. unfold get_user_input, bind.
  rewrite (input_cons w text rest Hin).
  assert (String.eqb "END" text = false) as -> by (apply String.eqb_neq; congruence).
  assert (String.eqb "SCRATCHPAD" text = false) as ->
    by (apply String.eqb_neq; congruence).
  assert (String.eqb "M" text = false) as -> by (apply String.eqb_neq; congruence).
  reflexivity.
Qed.

Lemma get_user_input_console w : console_only w (snd (get_user_input w)).
Proof.
  unfold get_user_input, bind.
  pose proof (input_console w) as Hin.
  destruct (input w) as [[text|e|code] w1]; cbn [snd] in *; try done.
  destruct (String.eqb "END" text); [done|].
  destruct (String.eqb "SCRATCHPAD" text || String.eqb "M" text); [|done].
  pose proof (multi_line_input_console w1) as Hml.
  destruct (multi_line_input w1) as [[t|e|code] w2]; cbn [snd] in *;
    (eapply console_only_trans; [exact Hin|exact Hml]).
Qed.

End Console.

(** ** Building the request envelope *)

Section Envelope.

Implicit Types (w : World) (l : loc).

Lemma deref_list_new_old w l :
  (l < length (heap w))%nat -> deref (snd (list_new w)) l = deref w l.
Proof. intros Hl. unfold deref; cbn. by apply lookup_total_app_l. Qed.

Lemma deref_list_new_fresh w : deref (snd (list_new w)) (length (heap w)) = [].
Proof. unfold deref; cbn. by apply list_lookup_total_middle. Qed.

(** The envelope is a new list object: its reference is the first one
    not in use; it receives the history's items and then the system
    message.  Every list object that existed before keeps its items. *)
Lemma build_request_spec system_message w :
  let history := ALL_MESSAGES (app_state w) in
  let conversation := length (heap w) in
  let w1 := snd (build_request system_message w) in
  (history < length (heap w))%nat ->
  fst (build_request system_message w) = Ret conversation /\
  deref w1 conversation =
    (deref w history ++ [mkMessage system system_message])%list /\
  (forall l, (l < length (heap w))%nat -> deref w1 l = deref w l) /\
  length (heap w1) = S (length (heap w)) /\
  app_state w1 = app_state w /\
  requests w1 = requests w /\
  writes w1 =
    (writes w ++
     [mkWrite conversation [] (deref w history);
      mkWrite conversation (deref w history)
        (deref w history ++ [mkMessage system system_message])])%list.
Proof.
  cbv zeta. intros Hvalid.
  set (conversation := length (heap w)).
  set (history := ALL_MESSAGES (app_state w)) in *.
  set (w0 := snd (list_new w)).
  assert (Hlen0 : length (heap w0) = S conversation).
  { subst w0. cbn. rewrite length_app. cbn. lia. }
  assert (Hfresh : deref w0 conversation = []) by apply deref_list_new_fresh.
  assert (Hhist : deref w0 history = deref w history)
    by (by apply deref_list_new_old).
  set (w1 := snd (store conversation (deref w0 conversation ++ deref w0 history) w0)).
  assert (Hconv1 : deref w1 conversation = deref w history).
  { subst w1. rewrite deref_store_eq by lia. by rewrite Hfresh, Hhist. }
  set (w2 := snd (store conversation
                    (deref w1 conversation ++ [mkMessage system system_message]) w1)).
  assert (Hrun : build_request system_message w = (Ret conversation, w2))
    by reflexivity.
  rewrite Hrun. cbn [fst snd].
  assert (Hlen1 : length (heap w1) = S conversation).
  { subst w1. by rewrite heap_length_store. }
  repeat split.
  - subst w2. rewrite deref_store_eq by lia. by rewrite Hconv1.
  - intros l Hl. subst w2 w1.
    rewrite !deref_store_ne by (subst conversation; lia).
    by apply deref_list_new_old.
  - subst w2. by rewrite heap_length_store.
  - assert (Hw1 : writes w1 =
      (writes w ++ [mkWrite conversation (deref w0 conversation)
                      (deref w0 conversation ++ deref w0 history)])%list)
      by reflexivity.
    assert (Hw2 : writes w2 =
      (writes w1 ++ [mkWrite conversation (deref w1 conversation)
                       (deref w1 conversation ++
                        [mkMessage system system_message])])%list)
      by reflexivity.
    rewrite Hw2, Hw1, Hconv1, Hfresh, Hhist, <- app_assoc. reflexivity.
Qed.

End Envelope.

(** ** The history under the main loop *)

Section History.

Implicit Types (w : World) (l : loc) (ws : list Write).

Lemma history_trace_app l a b c ws1 ws2 :
  history_trace l a ws1 b -> history_trace l b ws2 c ->
  history_trace l a (ws1 ++ ws2) c.
Proof.
  induction 1 as [items|items wr ws items' Hne _ IH|items wr ws items' Hl Hb Hs _ IH];
    intros Hrest; cbn.
  - exact Hrest.
  - apply trace_other; auto.
  - apply trace_step; auto.
Qed.

Lemma history_trace_others l items ws :
  Forall (fun wr => w_loc wr <> l) ws -> history_trace l items ws items.
Proof.
  induction 1 as [|wr ws Hne _ IH]; [apply trace_done|by apply trace_other].
Qed.

(** Every logged mutation of [l] in a trace is a legal change. *)
Lemma history_trace_steps l a b ws :
  history_trace l a ws b ->
  Forall (fun wr => w_loc wr = l -> history_step (w_before wr) (w_after wr)) ws.
Proof.
  induction 1 as [items|items wr ws items' Hne _ IH|items wr ws items' Hl Hb Hs _ IH];
    constructor; try done.
  intros _. by rewrite Hb.
Qed.

Lemma evolves_refl w : evolves w w.
Proof.
  intros _. repeat split; try done. exists []. split; [by rewrite app_nil_r|].
  apply trace_done.
Qed.

Lemma evolves_allocated w w' :
  evolves w w' -> history_allocated w -> history_allocated w'.
Proof.
  intros Hev Hvalid. destruct (Hev Hvalid) as (Ha & Hlen & _).
  unfold history_allocated in *. rewrite Ha. lia.
Qed.

Lemma evolves_trans w1 w2 w3 : evolves w1 w2 -> evolves w2 w3 -> evolves w1 w3.
Proof.
  intros H12 H23 Hvalid.
  pose proof (evolves_allocated _ _ H12 Hvalid) as Hvalid2.
  destruct (H12 Hvalid) as (Ha & Hlen & new1 & Hw1 & Ht1).
  destruct (H23 Hvalid2) as (Ha' & Hlen' & new2 & Hw2 & Ht2).
  rewrite Ha in Ht2.
  repeat split; [congruence|lia|].
  exists (new1 ++ new2)%list. split.
  - by rewrite Hw2, Hw1, app_assoc.
  - eapply history_trace_app; eauto.
Qed.

Lemma evolves_console w w' : console_only w w' -> evolves w w'.
Proof.
  intros (Ha & Hh & Hw & _) _. repeat split; [done|by rewrite Hh|].
  exists []. split; [by rewrite Hw, app_nil_r|].
  unfold deref. rewrite Hh. apply trace_done.
Qed.

(** Mutations confined to another list object leave the history alone. *)
Lemma evolves_frame l w w' :
  frame_on l w w' -> l <> ALL_MESSAGES (app_state w) -> evolves w w'.
Proof.
  intros (Ha & Hh & _ & _ & Hd & new & Hw & Hnew) Hne _.
  repeat split; [done|lia|].
  exists new. split; [done|].
  rewrite Hd by done. apply history_trace_others.
  eapply Forall_impl; [exact Hnew|]. cbn. congruence.
Qed.

Lemma evolves_append w m :
  role m = user \/ role m = assistant ->
  evolves w (snd (list_append (ALL_MESSAGES (app_state w)) m w)).
Proof.
  intros Hrole Hvalid. unfold list_append.
  repeat split; [cbn; by rewrite length_insert|].
  eexists. split; [reflexivity|].
  apply trace_step; cbn [w_loc w_before w_after]; try done.
  - left. by exists m.
  - rewrite deref_store_eq by exact Hvalid. apply trace_done.
Qed.

Lemma evolves_pop w :
  evolves w (snd (list_pop (ALL_MESSAGES (app_state w)) 0 w)).
Proof.
  destruct (deref w (ALL_MESSAGES (app_state w))) as [|m rest] eqn:Hd.
  - rewrite (list_pop_nil _ _ Hd). apply evolves_refl.
  - rewrite (list_pop_cons _ _ _ _ Hd). intros Hvalid.
    repeat split; [cbn; by rewrite length_insert|].
    eexists. split; [reflexivity|].
    apply trace_step; cbn [w_loc w_before w_after]; try done.
    + right. by exists m.
    + cbn [snd]. rewrite deref_store_eq by exact Hvalid. apply trace_done.
Qed.

Lemma evolves_bind {A B} (m : M A) (k : A -> M B) w :
  evolves w (snd (m w)) ->
  (forall a w1, m w = (Ret a, w1) -> history_allocated w1 ->
                evolves w1 (snd (k a w1))) ->
  evolves w (snd (bind m k w)).
Proof.
  intros Hm Hk Hvalid. unfold bind.
  destruct (m w) as [[a|e|code] w1] eqn:Hrun; cbn [snd] in *;
    try (by apply Hm).
  apply (evolves_trans w w1); [exact Hm| |exact Hvalid].
  apply Hk; [done|]. by apply (evolves_allocated w).
Qed.

Lemma evolves_open_file path w : evolves w (snd (open_file path w)).
Proof.
  unfold open_file. destruct (files w !! path); apply evolves_refl.
Qed.

Lemma evolves_build_request system_message w :
  evolves w (snd (build_request system_message w)).
Proof.
  intros Hvalid.
  destruct (build_request_spec system_message w Hvalid)
    as (_ & _ & Hold & Hlen & Ha & _ & Hw).
  split; [exact Ha|]. split; [lia|].
  eexists. split; [exact Hw|].
  rewrite Hold by done.
  apply history_trace_others.
  unfold history_allocated in Hvalid.
  repeat constructor; cbn; lia.
Qed.

Lemma evolves_trim tokens w : evolves w (snd (trim_if_over_budget tokens w)).
Proof.
  unfold trim_if_over_budget, bind, model_max_tokens, all_messages.
  destruct (tokens >? MODEL_MAX_TOKENS (app_state w)); [|apply evolves_refl].
  pose proof (evolves_pop w) as Hpop.
  by destruct (list_pop (ALL_MESSAGES (app_state w)) 0 w) as [[m|e|code] w1].
Qed.

End History.

Section MainLoop.

Context {duration : Type}.
Variable client : list (list Message) -> list Message -> Reply duration.

Implicit Types (w : World).

Lemma all_messages_run w history w1 :
  all_messages w = (Ret history, w1) ->
  history = ALL_MESSAGES (app_state w) /\ w1 = w.
Proof. unfold all_messages. intros [= <- <-]. done. Qed.

Lemma main_turn_evolves w : evolves w (snd (main_turn duration client w)).
Proof.
  unfold main_turn.
  apply evolves_bind; [apply evolves_console, get_user_input_console|].
  intros [text|] w1 _ Hv1; [|apply evolves_refl].
  destruct (String.eqb text ""); [apply evolves_refl|].
  apply evolves_bind; [apply evolves_refl|].
  intros history w2 [-> ->]%all_messages_run _.
  apply evolves_bind; [apply evolves_append; by left|].
  intros _ w3 _ Hv3.
  apply evolves_bind; [apply evolves_open_file|].
  intros template w4 _ Hv4.
  apply evolves_bind; [apply evolves_open_file|].
  intros scratchpad w5 _ Hv5.
  apply evolves_bind; [apply evolves_build_request|].
  intros conversation w6 Hbuild Hv6.
  destruct (build_request_spec
              (PyStr.replace "<<CODE>>" scratchpad template) w5 Hv5)
    as (Hret & _ & _ & _ & Ha & _).
  rewrite Hbuild in Hret, Ha. cbn [fst snd] in Hret, Ha.
  injection Hret as ->.
  apply evolves_bind.
  { eapply evolves_frame; [apply exchange_frame|].
    rewrite Ha. unfold history_allocated in Hv5. lia. }
  intros [[response tokens] processing_time] w7 _ Hv7.
  apply evolves_bind; [apply evolves_trim|].
  intros _ w8 _ Hv8.
  apply evolves_bind; [apply evolves_refl|].
  intros history w9 [-> ->]%all_messages_run _.
  apply evolves_append. by right.
Qed.

Lemma main_loop_evolves fuel :
  forall w, evolves w (snd (main_loop duration client fuel w)).
Proof.
  induction fuel as [|fuel IH]; intros w; [apply evolves_refl|].
  cbn [main_loop].
  apply evolves_bind; [apply main_turn_evolves|].
  intros _ w1 _ _. apply IH.
Qed.

End MainLoop.

(** ** The requests sent *)

Lemma requests_extend_refl w : requests_extend w w.
Proof. exists []. by rewrite app_nil_r. Qed.

Lemma requests_extend_trans w1 w2 w3 :
  requests_extend w1 w2 -> requests_extend w2 w3 -> requests_extend w1 w3.
Proof.
  intros [m1 H1] [m2 H2]. exists (m1 ++ m2)%list.
  by rewrite H2, H1, app_assoc.
Qed.

Lemma requests_extend_bind {A B} (m : M A) (k : A -> M B) w :
  requests_extend w (snd (m w)) ->
  (forall a w1, requests_extend w1 (snd (k a w1))) ->
  requests_extend w (snd (bind m k w)).
Proof.
  intros Hm Hk. unfold bind.
  destruct (m w) as [[a|e|code] w1]; cbn [snd] in *; try done.
  eapply requests_extend_trans; [exact Hm|apply Hk].
Qed.

Lemma bind_ret_eq {A B} (m : M A) (k : A -> M B) w a w1 :
  m w = (Ret a, w1) -> bind m k w = k a w1.
Proof. intros Hrun. unfold bind. by rewrite Hrun. Qed.

Lemma requests_extend_pop l w : requests_extend w (snd (list_pop l 0 w)).
Proof.
  unfold list_pop.
  destruct (deref w l !! 0%nat); [|apply requests_extend_refl].
  exists []. cbn. by rewrite app_nil_r.
Qed.

Lemma requests_extend_trim tokens w :
  requests_extend w (snd (trim_if_over_budget tokens w)).
Proof.
  unfold trim_if_over_budget.
  apply requests_extend_bind; [apply requests_extend_refl|].
  intros budget w1. destruct (tokens >? budget); [|apply requests_extend_refl].
  apply requests_extend_bind; [apply requests_extend_refl|].
  intros history w2.
  apply requests_extend_bind; [apply requests_extend_pop|].
  intros _ w3. apply requests_extend_refl.
Qed.

Section Requests.

Context {duration : Type}.
Variable client : list (list Message) -> list Message -> Reply duration.

Implicit Types (w : World) (conversation : loc) (retries : list nat).

(** Each pass sends exactly one request: the items the envelope's list
    object holds when the pass begins. *)
Lemma attempt_requests retry conversation w :
  requests (snd (attempt duration client retry conversation w)) =
    (requests w ++ [deref w conversation])%list /\
  forall pass c,
    fst (attempt duration client retry conversation w) = Ret (pass, c) ->
    c = conversation.
Proof.
  split; [|apply attempt_frame].
  destruct (client (requests w) (deref w conversation))
    as [text total_tokens elapsed|msg] eqn:Hc.
  - by rewrite (attempt_completed client retry conversation w _ _ _ Hc).
  - destruct (context_length_error msg) eqn:Hmsg.
    + destruct (deref w conversation) as [|m items] eqn:Hd.
      * rewrite (attempt_index_error client retry conversation w msg) by
          (rewrite ?Hd; done).
        cbn. by rewrite Hd.
      * rewrite (attempt_shrink client retry conversation w msg m items) by
          (rewrite ?Hd; done).
        cbn. by rewrite Hd.
    + by rewrite (attempt_backoff client retry conversation w msg).
Qed.

Lemma retry_loop_requests_extend retries conversation w :
  requests_extend w (snd (retry_loop duration client retries conversation w)).
Proof.
  revert conversation w.
  induction retries as [|retry more IH]; intros conversation w;
    [apply requests_extend_refl|].
  cbn [retry_loop].
  destruct (attempt_requests retry conversation w) as [Hreq Hsame].
  apply requests_extend_bind; [by eexists|].
  intros [[r|] c] w1; [apply requests_extend_refl|apply IH].
Qed.

(** The first request of an exchange carries the envelope as it was
    handed in. *)
Lemma exchange_first_request conversation w :
  exists more,
    requests (snd (do_chatbot_conversation_exchange duration client conversation w)) =
      (requests w ++ deref w conversation :: more)%list.
Proof.
  unfold do_chatbot_conversation_exchange.
  change (seq 0 max_retry) with (0%nat :: seq 1 6). cbn [retry_loop].
  destruct (attempt_requests 0 conversation w) as [Hreq _].
  unfold bind.
  destruct (attempt duration client 0 conversation w) as [[[[r|] c]|e|code] w1];
    cbn [snd] in *; try (exists []; exact Hreq).
  destruct (retry_loop_requests_extend (seq 1 6) c w1) as [more Hmore].
  exists more. rewrite Hmore, Hreq, <- app_assoc. reflexivity.
Qed.

(** A turn typed at the prompt: the first request that follows carries
    the history with the user's message added, then one system message
    made from the template. *)
Lemma main_turn_first_request w text rest template scratchpad :
  history_allocated w ->
  stdin w = text :: rest ->
  text <> "END" -> text <> "SCRATCHPAD" -> text <> "M" -> text <> "" ->
  files w !! "system_message.txt" = Some template ->
  files w !! "scratchpad.txt" = Some scratchpad ->
  exists more,
    requests (snd (main_turn duration client w)) =
      (requests w ++
       ((deref w (ALL_MESSAGES (app_state w)) ++ [mkMessage user text]) ++
        [mkMessage system
           (PyStr.replace "<<CODE>>" (universal_newlines scratchpad)
              (universal_newlines template))])
       :: more)%list.
Proof.
  intros Hvalid Hin H1 H2 H3 H4 Htemplate Hscratch.
  unfold main_turn.
  rewrite (bind_ret_eq _ _ _ _ _ (get_user_input_text w text rest H1 H2 H3 Hin)).
  apply String.eqb_neq in H4. rewrite H4.
  set (w1 := with_stdin rest w).
  set (history := ALL_MESSAGES (app_state w)).
  rewrite (bind_ret_eq all_messages _ w1 history w1) by reflexivity.
  set (w2 := snd (list_append history (mkMessage user text) w1)).
  rewrite (bind_ret_eq (list_append _ _) _ w1 tt w2) by reflexivity.
  rewrite (bind_ret_eq (open_file _) _ w2 (universal_newlines template) w2)
    by (unfold open_file; cbn; by rewrite Htemplate).
  rewrite (bind_ret_eq (open_file _) _ w2 (universal_newlines scratchpad) w2)
    by (unfold open_file; cbn; by rewrite Hscratch).
  set (system_message :=
         PyStr.replace "<<CODE>>" (universal_newlines scratchpad)
           (universal_newlines template)).
  assert (Hvalid2 : history_allocated w2).
  { unfold history_allocated. cbn. by rewrite length_insert. }
  assert (Hhist2 : deref w2 history =
                   (deref w history ++ [mkMessage user text])%list).
  { subst w2. unfold list_append. by rewrite deref_store_eq. }
  destruct (build_request_spec system_message w2 Hvalid2)
    as (Hret & Hconv & _ & _ & _ & Hreq & _).
  destruct (build_request system_message w2) as [built w3] eqn:Hbuild.
  cbn [fst snd] in Hret, Hconv, Hreq. subst built.
  rewrite (bind_ret_eq _ _ _ _ _ Hbuild).
  change (ALL_MESSAGES (app_state w2)) with history in Hconv.
  rewrite Hhist2 in Hconv.
  set (conversation := length (heap w2)) in *.
  destruct (exchange_first_request conversation w3) as [more Hmore].
  rewrite Hconv, Hreq in Hmore.
  change (requests w2) with (requests w) in Hmore.
  unfold bind at 1.
  destruct (do_chatbot_conversation_exchange duration client conversation w3)
    as [[[[response tokens] processing_time]|e|code] w4];
    cbn [snd] in *; try (by exists more).
  assert (Hfinish : requests_extend w4
    (snd ((trim_if_over_budget tokens ;;;
           let* history := all_messages in
           list_append history (mkMessage assistant response)) w4))).
  { apply requests_extend_bind; [apply requests_extend_trim|].
    intros _ w5.
    apply requests_extend_bind; [apply requests_extend_refl|].
    intros history' w6. exists []. cbn. by rewrite app_nil_r. }
  destruct Hfinish as [more' Hfinish].
  exists (more ++ more')%list. rewrite Hfinish, Hmore.
  by rewrite <- app_assoc.
Qed.

End Requests.

(** * Properties of the specification *)

(** C1 (as amended).  A context-length failure removes exactly one item
    from the front of the envelope and is followed by the next pass
    without any sleep; that next pass is one of the seven the loop has.
    Hence for every [N <= 6] that does not exceed the number of items in
    the envelope, a service that fails [N] times with a context-length
    error and then completes yields that completion as the result, no
    sleep is requested, [N + 1 <= 7] requests are sent, the k-th of
    them carrying the envelope without its first k items, so that the
    completed call received the envelope with [N] items removed from its
    front. *)
Theorem context_length_retry_shrinks {duration : Type}
    (client : list (list Message) -> list Message -> Reply duration)
    (N : nat) (conversation : loc) (w : World)
    (text : string) (total_tokens : Z) (elapsed : duration) :
  (N < max_retry)%nat ->
  (N <= length (deref w conversation))%nat ->
  fails_then_completes client (length (requests w)) N text total_tokens elapsed ->
  let r := do_chatbot_conversation_exchange duration client conversation w in
  fst r = Ret (text, total_tokens, elapsed) /\
  sleeps (snd r) = sleeps w /\
  requests (snd r) =
    (requests w ++ shrinking_envelopes (deref w conversation) N)%list /\
  last (requests (snd r)) = Some (drop N (deref w conversation)) /\
  (length (requests (snd r)) <= length (requests w) + max_retry)%nat.
Proof.
  intros HN Henv Hclient. cbv zeta.
  unfold do_chatbot_conversation_exchange.
  destruct (retry_loop_shrink client N (seq 0 max_retry) conversation w
              text total_tokens elapsed) as (w' & Hrun & Hsl & Hreq & _);
    [by rewrite length_seq|done|done|].
  rewrite Hrun. cbn [fst snd]. repeat split; try done.
  - rewrite Hreq, last_app, shrinking_envelopes_last. done.
  - rewrite Hreq, length_app. unfold shrinking_envelopes.
    rewrite length_fmap, length_seq. lia.
Qed.

(** C2 (the defect).  History empty, the user types "hi", and the
    service answers every call with a context-length error: the envelope
    holds two items, the third failure pops from an empty list, and the
    [IndexError] raised inside the handler leaves the exchange and the
    main loop after three requests.  ([retry_loop_overflow] has the
    general case: any envelope of fewer than seven items.) *)
Theorem exchange_lets_index_error_escape :
  let run := main unit overflowing_client 1
               (initial_world scenario_files ["hi"]) in
  fst run = Raise IndexError /\
  length (requests (snd run)) = 3%nat /\
  sleeps (snd run) = [].
Proof. vm_compute. done. Qed.

(** C3.  When every call of the service fails with an error that is not
    a context-length one, the exchange ends in [exit(1)] after exactly
    seven requests (each carrying the unchanged envelope), and the
    durations passed to [time.sleep] are 5, 10, 20, 40, 80, 160, 320, in
    that order. *)
Theorem backoff_schedule_then_fatal {duration : Type}
    (client : list (list Message) -> list Message -> Reply duration)
    (conversation : loc) (w : World) :
  always_fails_otherwise client ->
  let r := do_chatbot_conversation_exchange duration client conversation w in
  fst r = Exit 1 /\
  sleeps (snd r) = (sleeps w ++ [5; 10; 20; 40; 80; 160; 320])%list /\
  requests (snd r) = (requests w ++ replicate 7 (deref w conversation))%list.
Proof.
  intros Hfail. cbv zeta. unfold do_chatbot_conversation_exchange.
  rewrite (retry_loop_backoff client _ _ _ Hfail). done.
Qed.

(** C4.  For every non-empty history, the trim after an exchange
    completes normally and leaves the history without its element at
    index 0 (one element fewer, the rest in place) when the reported
    token usage is strictly above the budget, and leaves the history as
    it was otherwise. *)
Theorem trim_if_over_budget_oldest (tokens : Z) (w : World) :
  let history := ALL_MESSAGES (app_state w) in
  deref w history <> [] ->
  fst (trim_if_over_budget tokens w) = Ret tt /\
  deref (snd (trim_if_over_budget tokens w)) history =
    (if decide (tokens > MODEL_MAX_TOKENS (app_state w))
     then drop 1 (deref w history)
     else deref w history) /\
  length (deref (snd (trim_if_over_budget tokens w)) history) =
    (if decide (tokens > MODEL_MAX_TOKENS (app_state w))
     then (length (deref w history) - 1)%nat
     else length (deref w history)).
Proof.
  cbv zeta. intros Hne.
  pose proof (deref_nonempty_valid _ _ Hne) as Hvalid.
  unfold trim_if_over_budget, bind, model_max_tokens, all_messages.
  destruct (deref w (ALL_MESSAGES (app_state w))) as [|m rest] eqn:Hd; [done|].
  destruct (Z.gtb_spec tokens (MODEL_MAX_TOKENS (app_state w))) as [Hgt|Hle];
    repeat case_decide; try lia.
  - rewrite (list_pop_cons _ _ _ _ Hd). cbn [fst snd ret].
    rewrite deref_store_eq by done.
    repeat split; cbn; lia.
  - cbn [fst snd ret]. rewrite Hd. done.
Qed.

Lemma handle_error_frame error conversation w :
  frame_on conversation w (snd (handle_error error conversation w)).
Proof.
  unfold handle_error.
  destruct (PyStr.contains "maximum context length" (exn_str error));
    [|apply frame_on_refl].
  unfold bind.
  destruct (deref w conversation) as [|m items] eqn:Hd.
  - rewrite (list_pop_nil _ _ Hd). apply frame_on_refl.
  - rewrite (list_pop_cons _ _ _ _ Hd). apply frame_on_store.
Qed.

(** C5.  While the main loop runs, the mutations logged for the list
    object behind [ALL_MESSAGES] form a chain from its items at the
    start to its items at the end, and each of them either appends one
    user or assistant message at the end or removes the item at index 0;
    the items that stay are never reordered or rewritten. *)
Theorem history_changes_by_append_or_pop_front {duration : Type}
    (client : list (list Message) -> list Message -> Reply duration)
    (fuel : nat) (w : World) :
  history_allocated w ->
  let history := ALL_MESSAGES (app_state w) in
  let w' := snd (main_loop duration client fuel w) in
  exists new,
    writes w' = (writes w ++ new)%list /\
    history_trace history (deref w history) new (deref w' history) /\
    Forall (fun wr => w_loc wr = history ->
                      history_step (w_before wr) (w_after wr)) new.
Proof.
  intros Hvalid. cbv zeta.
  destruct (main_loop_evolves client fuel w Hvalid) as (_ & _ & new & Hw & Htrace).
  exists new. repeat split; [done..|].
  eapply history_trace_steps, Htrace.
Qed.

(** C6.  Building the envelope creates a list object of its own and
    leaves the history's items (hence its length) as they were; and
    whatever [handle_error] or the whole exchange then removes, it
    removes from that envelope: the history still holds the same
    items. *)
Theorem envelope_never_touches_history {duration : Type}
    (client : list (list Message) -> list Message -> Reply duration)
    (system_message : string) (w : World) :
  history_allocated w ->
  let history := ALL_MESSAGES (app_state w) in
  let built := build_request system_message w in
  exists conversation,
    fst built = Ret conversation /\
    conversation <> history /\
    deref (snd built) history = deref w history /\
    length (deref (snd built) history) = length (deref w history) /\
    (forall error,
        deref (snd (handle_error error conversation (snd built))) history =
        deref w history) /\
    deref (snd (do_chatbot_conversation_exchange duration client conversation
                  (snd built))) history =
      deref w history.
Proof.
  intros Hvalid. cbv zeta.
  destruct (build_request_spec system_message w Hvalid)
    as (Hret & _ & Hold & _ & _ & _ & _).
  unfold history_allocated in Hvalid.
  exists (length (heap w)).
  assert (Hne : ALL_MESSAGES (app_state w) <> length (heap w)) by lia.
  assert (Hsame : deref (snd (build_request system_message w))
                    (ALL_MESSAGES (app_state w)) =
                  deref w (ALL_MESSAGES (app_state w))) by (by apply Hold).
  repeat split; try done.
  - by rewrite Hsame.
  - intros error.
    destruct (handle_error_frame error (length (heap w))
                (snd (build_request system_message w)))
      as (_ & _ & _ & _ & Hd & _).
    by rewrite Hd.
  - destruct (exchange_frame client (length (heap w))
                (snd (build_request system_message w)))
      as (_ & _ & _ & _ & Hd & _).
    by rewrite Hd.
Qed.

(** C7.  In a turn typed at the prompt, the request sent first carries
    the history (with the user's message just added) followed by exactly
    one system message, whose content is the template, as read from its
    file, with every [<<CODE>>] replaced by the scratchpad's contents,
    as read from its file.  With an empty history, "hi" typed, the
    template "You are helpful. <<CODE>>" and an empty scratchpad, that
    request is [user:"hi", system:"You are helpful. "].  With the
    template and the scratchpad of [stored_with_carriage_returns] the
    system message reads "You are helpful.\nx = 1\n\nBye".

    What "replaced" and "as read" mean is part of the statement: a
    template in which no occurrence begins before a given one becomes
    the text before it, then the scratchpad's contents, then the rest
    with its occurrences replaced; a template without occurrence stays
    as it is; and a file without carriage return is read as stored. *)
Theorem envelope_is_history_then_system_message {duration : Type}
    (client : list (list Message) -> list Message -> Reply duration) :
  (forall w text rest template scratchpad,
      history_allocated w ->
      stdin w = text :: rest ->
      text <> "END" -> text <> "SCRATCHPAD" -> text <> "M" -> text <> "" ->
      files w !! "system_message.txt" = Some template ->
      files w !! "scratchpad.txt" = Some scratchpad ->
      exists more,
        requests (snd (main_turn duration client w)) =
          (requests w ++
           ((deref w (ALL_MESSAGES (app_state w)) ++ [mkMessage user text]) ++
            [mkMessage system
               (PyStr.replace "<<CODE>>" (universal_newlines scratchpad)
                  (universal_newlines template))])
           :: more)%list) /\
  (exists more,
      requests (snd (main_turn duration client
                       (initial_world scenario_files ["hi"]))) =
        [mkMessage user "hi"; mkMessage system "You are helpful. "] :: more) /\
  (exists more,
      requests (snd (main_turn duration client
                       (initial_world stored_with_carriage_returns ["hi"]))) =
        [mkMessage user "hi";
         mkMessage system
           ("You are helpful." +:+ PyStr.NL +:+ "x = 1" +:+ PyStr.NL +:+
            PyStr.NL +:+ "Bye")] :: more) /\
  (forall before after scratchpad,
      PyStr.contains "<<CODE>>" (before +:+ "<<CODE>") = false ->
      PyStr.replace "<<CODE>>" scratchpad (before +:+ "<<CODE>>" +:+ after) =
        before +:+ scratchpad +:+ PyStr.replace "<<CODE>>" scratchpad after) /\
  (forall template scratchpad,
      PyStr.contains "<<CODE>>" template = false ->
      PyStr.replace "<<CODE>>" scratchpad template = template) /\
  (forall stored,
      no_carriage_return stored = true -> universal_newlines stored = stored).
Proof.
  split; [intros; by eapply main_turn_first_request|].
  split; [|split; [|split; [|split]]].
  - destruct (main_turn_first_request client (initial_world scenario_files ["hi"])
                "hi" [] "You are helpful. <<CODE>>" "")
      as [more Hmore]; try done.
    + unfold history_allocated. cbn. lia.
    + by exists more.
  - destruct (main_turn_first_request client
                (initial_world stored_with_carriage_returns ["hi"]) "hi" []
                ("You are helpful." +:+ CR +:+ PyStr.NL +:+ "<<CODE>>" +:+ CR
                 +:+ "Bye")
                ("x = 1" +:+ CR +:+ PyStr.NL))
      as [more Hmore]; try done.
    + unfold history_allocated. cbn. lia.
    + by exists more.
  - intros before after scratchpad Habsent.
    apply (replace_scan_leftmost "<<CODE>" ">"%char scratchpad before after).
    exact Habsent.
  - intros template scratchpad Habsent.
    exact (replace_scan_absent "<<CODE>>" scratchpad template Habsent).
  - apply universal_newlines_plain.
Qed.

(** C8.  With the key file in place, "END" typed at the main prompt
    ends [main] with [exit(0)] and no request has been sent; and an
    exchange whose seven passes all fail ends with [exit(1)]. *)
Theorem exit_status_of_quit_and_of_exhaustion {duration : Type}
    (client : list (list Message) -> list Message -> Reply duration) :
  (forall fuel w rest key,
      stdin w = "END" :: rest ->
      files w !! "key_openai.txt" = Some key ->
      fst (main duration client (S fuel) w) = Exit 0 /\
      requests (snd (main duration client (S fuel) w)) = requests w) /\
  (forall conversation w,
      always_fails client ->
      fst (do_chatbot_conversation_exchange duration client conversation w) =
        Exit 1 /\
      length (requests (snd (do_chatbot_conversation_exchange duration client
                               conversation w))) =
        (length (requests w) + max_retry)%nat).
Proof.
  split.
  - intros fuel w rest key Hin Hkey.
    assert (Hrun : main duration client (S fuel) w = (Exit 0, with_stdin rest w)).
    { unfold main.
      rewrite (bind_ret_eq (open_file _) _ w (universal_newlines key) w)
        by (unfold open_file; by rewrite Hkey).
      cbn [main_loop]. unfold main_turn, bind.
      by rewrite (get_user_input_end w rest Hin). }
    by rewrite Hrun.
  - intros conversation w Hfail.
    destruct (retry_loop_exhausted client (seq 0 max_retry) conversation w Hfail)
      as [Hout Hreq].
    split; [exact Hout|]. by rewrite length_seq in Hreq.
Qed.

(** C9.  "M" typed at the main prompt, then "foo", "bar" and "END": the
    turn ends normally (the loop goes back to the prompt), the
    scratchpad file holds "foo\nbar", and no request has been sent. *)
Theorem scratchpad_entry_foo_bar {duration : Type}
    (client : list (list Message) -> list Message -> Reply duration)
    (w : World) (rest : list string) :
  stdin w = (["M"; "foo"; "bar"; "END"] ++ rest)%list ->
  let run := main_turn duration client w in
  fst run = Ret tt /\
  files (snd run) !! "scratchpad.txt" = Some ("foo" +:+ PyStr.NL +:+ "bar") /\
  requests (snd run) = requests w /\
  stdin (snd run) = rest.
Proof.
  intros Hin. cbv zeta. unfold main_turn.
  rewrite (bind_ret_eq _ _ _ _ _
             (get_user_input_scratchpad w "M" ["foo"; "bar"] rest
                (or_intror eq_refl)
                ltac:(repeat constructor; discriminate) Hin)).
  cbn [fst snd ret files with_files requests with_stdin stdin].
  rewrite lookup_insert_eq. done.
Qed.


(** * Further properties of the code *)

(** ** Turns that end early *)

Section Turn.

Context {duration : Type}.
Variable client : list (list Message) -> list Message -> Reply duration.

Implicit Types (w : World).

(** X2.  Without the key file [main] raises [FileNotFoundError] for it
    at once: no line is read from the console, nothing is sent, nothing
    changes. *)
Theorem main_without_key_file (fuel : nat) (w : World) :
  files w !! "key_openai.txt" = None ->
  main duration client fuel w = (Raise (FileNotFoundError "key_openai.txt"), w).
Proof.
  intros Hkey. unfold main, bind, open_file. by rewrite Hkey.
Qed.

(** A line that is neither a keyword nor empty: the user's message goes
    into the history, and the turn goes on from there. *)
Lemma main_turn_text w text rest :
  stdin w = text :: rest ->
  text <> "END" -> text <> "SCRATCHPAD" -> text <> "M" -> text <> "" ->
  main_turn duration client w =
    (let* template := open_file "system_message.txt" in
     let* scratchpad := open_file "scratchpad.txt" in
     let system_message := PyStr.replace "<<CODE>>" scratchpad template in
     let* conversation := build_request system_message in
     let* r := do_chatbot_conversation_exchange duration client conversation in
     let '(response, tokens, processing_time) := r in
     trim_if_over_budget tokens ;;;
     let* history := all_messages in
     list_append history (mkMessage assistant response))
      (after_user_message text rest w).
Proof.
  intros Hin H1 H2 H3 H4. unfold main_turn.
  rewrite (bind_ret_eq _ _ _ _ _ (get_user_input_text w text rest H1 H2 H3 Hin)).
  apply String.eqb_neq in H4. rewrite H4.
  rewrite (bind_ret_eq all_messages _ (with_stdin rest w)
             (ALL_MESSAGES (app_state w)) (with_stdin rest w)) by reflexivity.
  rewrite (bind_ret_eq (list_append _ _) _ (with_stdin rest w) tt
             (after_user_message text rest w)) by reflexivity.
  reflexivity.
Qed.

Lemma after_user_message_history w text rest :
  history_allocated w ->
  deref (after_user_message text rest w) (ALL_MESSAGES (app_state w)) =
    (deref w (ALL_MESSAGES (app_state w)) ++ [mkMessage user text])%list.
Proof.
  intros Hvalid. unfold after_user_message, list_append.
  by rewrite deref_store_eq.
Qed.

(** X3.  When the template file is missing, or the template is there
    and the scratchpad file is missing, a turn typed at the prompt ends
    in [FileNotFoundError] for that file; by then the user's message is
    already in the history, and no request has been sent. *)
Theorem turn_with_missing_file w text rest :
  history_allocated w ->
  stdin w = text :: rest ->
  text <> "END" -> text <> "SCRATCHPAD" -> text <> "M" -> text <> "" ->
  files w !! "system_message.txt" = None \/
  (is_Some (files w !! "system_message.txt") /\
   files w !! "scratchpad.txt" = None) ->
  let run := main_turn duration client w in
  fst run =
    Raise (FileNotFoundError
             (match files w !! "system_message.txt" with
              | Some _ => "scratchpad.txt"
              | None => "system_message.txt"
              end)) /\
  deref (snd run) (ALL_MESSAGES (app_state w)) =
    (deref w (ALL_MESSAGES (app_state w)) ++ [mkMessage user text])%list /\
  requests (snd run) = requests w.
Proof.
  intros Hvalid Hin H1 H2 H3 H4 Hmissing. cbv zeta.
  rewrite (main_turn_text w text rest Hin H1 H2 H3 H4).
  pose proof (after_user_message_history w text rest Hvalid) as Hhist.
  set (w2 := after_user_message text rest w) in *.
  assert (Hfiles : files w2 = files w) by reflexivity.
  unfold bind, open_file. rewrite Hfiles.
  destruct Hmissing as [Hnone|[[template Htemplate] Hnone]].
  - rewrite Hnone. cbn [raise fst snd]. done.
  - rewrite Htemplate. cbn [ret]. rewrite Hfiles, Hnone. cbn [raise fst snd].
    done.
Qed.

(** X4.  An empty line at the prompt is dropped: the line is consumed
    and nothing else changes (no message, no request). *)
Theorem empty_submission_is_ignored w rest :
  stdin w = "" :: rest ->
  main_turn duration client w = (Ret tt, with_stdin rest w).
Proof.
  intros Hin. unfold main_turn.
  rewrite (bind_ret_eq _ _ _ _ _
             (get_user_input_text w "" rest ltac:(done) ltac:(done) ltac:(done) Hin)).
  reflexivity.
Qed.

End Turn.

(** ** End of input *)

Lemma multi_line_loop_eof lines :
  forall fuel collected w,
    Forall (fun line => line <> "END") lines ->
    stdin w = lines ->
    (length (stdin w) < fuel)%nat ->
    multi_line_loop fuel collected w = (Raise EOFError, with_stdin [] w).
Proof.
  induction lines as [|line more IH]; intros fuel collected w Hno Hin Hfuel;
    (destruct fuel as [|fuel]; [lia|]); cbn [multi_line_loop]; unfold bind.
  - unfold input. rewrite Hin. cbn. unfold with_stdin. rewrite <- Hin.
    by rewrite world_eta.
  - rewrite (input_cons w line more Hin).
    apply Forall_cons in Hno as [Hline Hmore].
    apply String.eqb_neq in Hline. rewrite Hline.
    rewrite (IH fuel (collected ++ [line])%list (with_stdin more w)); try done.
    rewrite Hin in Hfuel. cbn in *. lia.
Qed.

(** X5.  When the console input ends at the prompt, [get_user_input]
    raises [EOFError]; when it ends inside a multi-line block (no [END]
    line yet), [EOFError] is raised as well and the lines typed so far
    are lost: no file is written. *)
Theorem end_of_input_raises (w : World) :
  (stdin w = [] -> get_user_input w = (Raise EOFError, w)) /\
  (forall keyword lines,
      keyword = "SCRATCHPAD" \/ keyword = "M" ->
      Forall (fun line => line <> "END") lines ->
      stdin w = keyword :: lines ->
      fst (get_user_input w) = Raise EOFError /\
      files (snd (get_user_input w)) = files w /\
      stdin (snd (get_user_input w)) = []).
Proof.
  split.
  - intros Hin. unfold get_user_input, bind, input. by rewrite Hin.
  - intros keyword lines Hkey Hno Hin. unfold get_user_input, bind.
    rewrite (input_cons w keyword lines Hin).
    assert (String.eqb "END" keyword = false) as ->
      by (destruct Hkey as [-> | ->]; reflexivity).
    assert (String.eqb "SCRATCHPAD" keyword || String.eqb "M" keyword = true) as ->
      by (destruct Hkey as [-> | ->]; reflexivity).
    unfold multi_line_input, bind.
    rewrite (multi_line_loop_eof lines _ [] (with_stdin lines w) Hno) by
      (cbn; done || lia).
    done.
Qed.

(** ** A completed turn *)

Lemma trim_if_over_budget_run tokens w m items :
  deref w (ALL_MESSAGES (app_state w)) = m :: items ->
  trim_if_over_budget tokens w =
    (Ret tt,
     if tokens >? MODEL_MAX_TOKENS (app_state w)
     then snd (store (ALL_MESSAGES (app_state w)) items w)
     else w).
Proof.
  intros Hd. unfold trim_if_over_budget, bind, model_max_tokens, all_messages.
  destruct (tokens >? MODEL_MAX_TOKENS (app_state w)); [|done].
  by rewrite (list_pop_cons _ _ _ _ Hd).
Qed.

Section CompletedTurn.

Context {duration : Type}.
Variable client : list (list Message) -> list Message -> Reply duration.

(** X6.  A turn typed at the prompt for which the service completes,
    possibly after up to six context-length failures: the turn ends
    normally and the history is its old items, then the user's message,
    then the assistant's reply, less the oldest item when the reported
    tokens exceed the budget.  What the retries removed from the
    envelope is not missing from the history, and nothing was slept. *)
Theorem completed_turn_history (w : World) (text : string) (rest : list string)
    (template scratchpad : string) (N : nat)
    (response : string) (tokens : Z) (processing_time : duration) :
  history_allocated w ->
  stdin w = text :: rest ->
  text <> "END" -> text <> "SCRATCHPAD" -> text <> "M" -> text <> "" ->
  files w !! "system_message.txt" = Some template ->
  files w !! "scratchpad.txt" = Some scratchpad ->
  (N < max_retry)%nat ->
  (N <= length (deref w (ALL_MESSAGES (app_state w))) + 2)%nat ->
  fails_then_completes client (length (requests w)) N response tokens
    processing_time ->
  let history := ALL_MESSAGES (app_state w) in
  let run := main_turn duration client w in
  fst run = Ret tt /\
  deref (snd run) history =
    ((if decide (tokens > MODEL_MAX_TOKENS (app_state w))
      then drop 1 (deref w history ++ [mkMessage user text])
      else deref w history ++ [mkMessage user text]) ++
     [mkMessage assistant response])%list /\
  length (requests (snd run)) = (length (requests w) + S N)%nat /\
  sleeps (snd run) = sleeps w.
Proof.
  intros Hvalid Hin H1 H2 H3 H4 Htemplate Hscratch HN Hlen Hclient. cbv zeta.
  rewrite (main_turn_text client w text rest Hin H1 H2 H3 H4).
  pose proof (after_user_message_history w text rest Hvalid) as Hhist2.
  set (history := ALL_MESSAGES (app_state w)) in *.
  set (w2 := after_user_message text rest w) in *.
  assert (Hvalid2 : history_allocated w2).
  { unfold history_allocated. cbn. by rewrite length_insert. }
  rewrite (bind_ret_eq (open_file _) _ w2 (universal_newlines template) w2)
    by (unfold open_file; cbn; by rewrite Htemplate).
  rewrite (bind_ret_eq (open_file _) _ w2 (universal_newlines scratchpad) w2)
    by (unfold open_file; cbn; by rewrite Hscratch).
  set (system_message :=
         PyStr.replace "<<CODE>>" (universal_newlines scratchpad)
           (universal_newlines template)).
  destruct (build_request_spec system_message w2 Hvalid2)
    as (Hret & Hconv & Hold & Hheap3 & Happ3 & Hreq3 & _).
  assert (Hsl3 : sleeps (snd (build_request system_message w2)) = sleeps w)
    by reflexivity.
  destruct (build_request system_message w2) as [built w3] eqn:Hbuild.
  cbn [fst snd] in Hret, Hconv, Hold, Hheap3, Happ3, Hreq3, Hsl3. subst built.
  rewrite (bind_ret_eq _ _ _ _ _ Hbuild).
  change (ALL_MESSAGES (app_state w2)) with history in Hconv.
  set (conversation := length (heap w2)) in *.
  assert (Hne : history <> conversation).
  { unfold history_allocated in Hvalid2. subst conversation history.
    change (app_state w2) with (app_state w) in Hvalid2. lia. }
  destruct (retry_loop_shrink client N (seq 0 max_retry) conversation w3
              response tokens processing_time)
    as (w4 & Hrun & Hsl4 & Hreq4 & _).
  { by rewrite length_seq. }
  { rewrite Hconv, Hhist2, !length_app. cbn. lia. }
  { by rewrite Hreq3. }
  pose proof (exchange_frame client conversation w3) as Hframe.
  unfold do_chatbot_conversation_exchange in *.
  rewrite Hrun in Hframe. cbn [snd] in Hframe.
  destruct Hframe as (Happ4 & Hheap4 & _ & _ & Hd4 & _).
  rewrite (bind_ret_eq _ _ _ _ _ Hrun).
  assert (Hhist4 : deref w4 history =
                   (deref w history ++ [mkMessage user text])%list).
  { rewrite Hd4 by done. rewrite Hold by exact Hvalid2. exact Hhist2. }
  assert (Hh4 : ALL_MESSAGES (app_state w4) = history).
  { by rewrite Happ4, Happ3. }
  assert (Hb4 : MODEL_MAX_TOKENS (app_state w4) = MODEL_MAX_TOKENS (app_state w)).
  { by rewrite Happ4, Happ3. }
  assert (Hvalid4 : (history < length (heap w4))%nat).
  { rewrite Hheap4, Hheap3. unfold history_allocated in Hvalid2.
    change (app_state w2) with (app_state w) in Hvalid2. fold history in Hvalid2.
    lia. }
  destruct (deref w history ++ [mkMessage user text])%list as [|m items] eqn:Hitems.
  { by destruct (deref w history). }
  rewrite (bind_ret_eq _ _ _ _ _
             (trim_if_over_budget_run tokens w4 m items
                ltac:(by rewrite Hh4))).
  rewrite Hh4, Hb4.
  destruct (Z.gtb_spec tokens (MODEL_MAX_TOKENS (app_state w))) as [Hgt|Hle];
    case_decide; try lia.
  - set (w5 := snd (store history items w4)).
    rewrite (bind_ret_eq all_messages _ w5 history w5)
      by (unfold all_messages; subst w5; cbn; by rewrite Hh4).
    unfold list_append. cbn [fst].
    rewrite deref_store_eq by (subst w5; by rewrite heap_length_store).
    subst w5. rewrite deref_store_eq by exact Hvalid4.
    repeat split; try done.
    + cbn. rewrite Hreq4, Hreq3, length_app. unfold shrinking_envelopes.
      by rewrite length_fmap, length_seq.
    + cbn. by rewrite Hsl4, Hsl3.
  - rewrite (bind_ret_eq all_messages _ w4 history w4)
      by (unfold all_messages; by rewrite Hh4).
    unfold list_append. cbn [fst].
    rewrite deref_store_eq by exact Hvalid4.
    rewrite Hhist4.
    repeat split; try done.
    + cbn. rewrite Hreq4, Hreq3, length_app. unfold shrinking_envelopes.
      by rewrite length_fmap, length_seq.
    + cbn. by rewrite Hsl4, Hsl3.
Qed.

End CompletedTurn.

(** ** What an exchange costs and sends *)

Lemma total_sublist (l1 l2 : list Z) :
  l1 `sublist_of` l2 -> Forall (fun d => 0 <= d) l2 -> total l1 <= total l2.
Proof.
  induction 1 as [|d l1 l2 _ IH|d l1 l2 _ IH]; intros Hpos; cbn; [lia|..];
    apply Forall_cons in Hpos as [Hd Hpos]; specialize (IH Hpos);
    unfold total in *; lia.
Qed.

Section ExchangeEffect.

Context {duration : Type}.
Variable client : list (list Message) -> list Message -> Reply duration.

Implicit Types (w : World) (conversation : loc) (retries : list nat).

(** All that one pass does, by the way it ends. *)
Lemma attempt_effect retry conversation w :
  let pass := attempt duration client retry conversation w in
  requests (snd pass) = (requests w ++ [deref w conversation])%list /\
  deref (snd pass) conversation `suffix_of` deref w conversation /\
  match fst pass with
  | Ret (Some (text, total_tokens, elapsed), c) =>
      c = conversation /\ sleeps (snd pass) = sleeps w /\
      client (requests w) (deref w conversation) =
        Completed text total_tokens elapsed
  | Ret (None, c) =>
      c = conversation /\
      (sleeps (snd pass) = sleeps w \/
       sleeps (snd pass) = (sleeps w ++ [backoff retry])%list)
  | Raise e =>
      e = IndexError /\ sleeps (snd pass) = sleeps w /\
      deref w conversation = []
  | Exit _ => False
  end.
Proof.
  cbv zeta.
  destruct (client (requests w) (deref w conversation))
    as [text total_tokens elapsed|msg] eqn:Hc.
  - rewrite (attempt_completed client retry conversation w _ _ _ Hc).
    cbn [fst snd]. by repeat split.
  - destruct (context_length_error msg) eqn:Hmsg.
    + destruct (deref w conversation) as [|m items] eqn:Hd.
      * rewrite (attempt_index_error client retry conversation w msg) by
          (rewrite ?Hd; done).
        cbn [fst snd]. repeat split; try done.
        -- cbn. by rewrite Hd.
        -- change (deref (sent conversation w) conversation)
             with (deref w conversation). by rewrite Hd.
      * rewrite (attempt_shrink client retry conversation w msg m items) by
          (rewrite ?Hd; done).
        cbn [fst snd]. repeat split; try (by left).
        -- cbn. by rewrite Hd.
        -- rewrite (deref_store_eq (sent conversation w)).
           ++ by apply suffix_cons_r.
           ++ apply (deref_nonempty_valid w). by rewrite Hd.
    + rewrite (attempt_backoff client retry conversation w msg) by done.
      cbn [fst snd]. repeat split; try (by right). done.
Qed.

(** All that the loop does over the passes it has left. *)
Lemma retry_loop_effect retries :
  forall conversation w,
    let run := retry_loop duration client retries conversation w in
    exists slept sent_envelopes,
      sleeps (snd run) = (sleeps w ++ slept)%list /\
      slept `sublist_of` (backoff <$> retries) /\
      requests (snd run) = (requests w ++ sent_envelopes)%list /\
      (length sent_envelopes <= length retries)%nat /\
      (retries <> [] -> sent_envelopes <> []) /\
      Forall (fun envelope => envelope `suffix_of` deref w conversation)
        sent_envelopes /\
      match fst run with
      | Ret (text, total_tokens, elapsed) =>
          exists earlier envelope,
            sent_envelopes = (earlier ++ [envelope])%list /\
            client (requests w ++ earlier)%list envelope =
              Completed text total_tokens elapsed
      | Raise e => e = IndexError /\ last sent_envelopes = Some []
      | Exit code => code = 1 /\ length sent_envelopes = length retries
      end.
Proof.
  induction retries as [|retry more IH]; intros conversation w; cbv zeta.
  - exists [], []. cbn. rewrite !app_nil_r. repeat split; try done.
  - cbn [retry_loop]. unfold bind.
    destruct (attempt_effect retry conversation w) as (Hreq & Hsuffix & Hend).
    destruct (attempt duration client retry conversation w)
      as [[[[[[text total_tokens] elapsed]|] c]|e|code] w1];
      cbn [fst snd] in *.
    + destruct Hend as (-> & Hsl & Hc).
      exists [], [deref w conversation]. cbn [fst snd ret].
      rewrite app_nil_r. repeat split; try done.
      * apply sublist_nil_l.
      * cbn. lia.
      * by repeat constructor.
      * exists [], (deref w conversation). by rewrite app_nil_r.
    + destruct Hend as (-> & Hsl).
      destruct (IH conversation w1)
        as (slept & sent_envelopes & Hsl' & Hsub & Hreq' & Hlen & _ & Hall & Hout).
      assert (Hall' : Forall (fun envelope =>
                                envelope `suffix_of` deref w conversation)
                        sent_envelopes).
      { eapply Forall_impl; [exact Hall|]. cbn. intros envelope Henv.
        by etrans. }
      assert (Hout' :
        match fst (retry_loop duration client more conversation w1) with
        | Ret (text, total_tokens, elapsed) =>
            exists earlier envelope,
              deref w conversation :: sent_envelopes =
                (earlier ++ [envelope])%list /\
              client (requests w ++ earlier)%list envelope =
                Completed text total_tokens elapsed
        | Raise e =>
            e = IndexError /\
            last (deref w conversation :: sent_envelopes) = Some []
        | Exit code =>
            code = 1 /\
            length (deref w conversation :: sent_envelopes) = length (retry :: more)
        end).
      { destruct (fst (retry_loop duration client more conversation w1))
          as [[[text total_tokens] elapsed]|e|code].
        - destruct Hout as (earlier & envelope & -> & Hc).
          exists (deref w conversation :: earlier), envelope. split; [done|].
          rewrite Hreq, <- app_assoc in Hc. exact Hc.
        - destruct Hout as [-> Hlast]. split; [done|].
          destruct sent_envelopes; [done|exact Hlast].
        - destruct Hout as [-> Hlength]. split; [done|]. cbn. by rewrite Hlength. }
      destruct Hsl as [Hsl|Hsl].
      * exists slept, (deref w conversation :: sent_envelopes).
        repeat split; try done.
        -- by rewrite Hsl', Hsl.
        -- cbn. by apply sublist_cons_r; left.
        -- by rewrite Hreq', Hreq, <- app_assoc.
        -- cbn. lia.
        -- by constructor.
      * exists (backoff retry :: slept), (deref w conversation :: sent_envelopes).
        repeat split; try done.
        -- by rewrite Hsl', Hsl, <- app_assoc.
        -- cbn. by apply sublist_skip.
        -- by rewrite Hreq', Hreq, <- app_assoc.
        -- cbn. lia.
        -- by constructor.
    + destruct Hend as (-> & Hsl & Hempty).
      exists [], [deref w conversation]. rewrite app_nil_r.
      repeat split; try done.
      * apply sublist_nil_l.
      * cbn. lia.
      * by repeat constructor.
      * cbn. by rewrite Hempty.
    + done.
Qed.

End ExchangeEffect.

Lemma last_of_suffix {A : Type} (l1 l2 : list A) :
  l1 `suffix_of` l2 -> l1 <> [] -> last l1 = last l2.
Proof.
  intros [k ->] Hne. rewrite last_app.
  destruct (last l1) eqn:Hlast; [done|].
  apply last_None in Hlast. done.
Qed.

Section ExchangeProperties.

Context {duration : Type}.
Variable client : list (list Message) -> list Message -> Reply duration.

Implicit Types (w : World) (conversation : loc).

(** X7.  Whatever the service does, the retry loop (lines 129-158)
    calls it at least once and at most seven times, and the durations
    the loop sleeps are, in order, some of 5, 10, 20, 40, 80, 160, 320
    (each at most once): never more than 635 seconds in all. *)
Theorem exchange_effort_is_bounded conversation w :
  let run := retry_loop duration client (seq 0 max_retry) conversation w in
  exists slept sent_envelopes,
    sleeps (snd run) = (sleeps w ++ slept)%list /\
    slept `sublist_of` [5; 10; 20; 40; 80; 160; 320] /\
    total slept <= 635 /\
    requests (snd run) = (requests w ++ sent_envelopes)%list /\
    (1 <= length sent_envelopes <= max_retry)%nat.
Proof.
  cbv zeta.
  destruct (retry_loop_effect client (seq 0 max_retry) conversation w)
    as (slept & sent_envelopes & Hsl & Hsub & Hreq & Hlen & Hne & _).
  exists slept, sent_envelopes.
  change (backoff <$> seq 0 max_retry) with [5; 10; 20; 40; 80; 160; 320] in Hsub.
  split; [done|]. split; [done|]. split; [|split; [done|]].
  - change 635 with (total [5; 10; 20; 40; 80; 160; 320]).
    apply total_sublist; [done|]. repeat constructor; lia.
  - specialize (Hne ltac:(done)). rewrite length_seq in Hlen.
    destruct sent_envelopes; [done|cbn in *; lia].
Qed.

(** X8.  Every request of an exchange carries a tail end of the
    envelope handed in: items are only ever dropped from the front,
    never added, reordered or rewritten.  So a request that is not
    empty ends with the envelope's last item (in [main], the system
    message). *)
Theorem exchange_requests_are_suffixes conversation w :
  let run := do_chatbot_conversation_exchange duration client conversation w in
  exists sent_envelopes,
    requests (snd run) = (requests w ++ sent_envelopes)%list /\
    Forall (fun envelope =>
              envelope `suffix_of` deref w conversation /\
              (envelope <> [] -> last envelope = last (deref w conversation)))
      sent_envelopes.
Proof.
  cbv zeta. unfold do_chatbot_conversation_exchange.
  destruct (retry_loop_effect client (seq 0 max_retry) conversation w)
    as (slept & sent_envelopes & _ & _ & Hreq & _ & _ & Hall & _).
  exists sent_envelopes. split; [done|].
  eapply Forall_impl; [exact Hall|]. cbn. intros envelope Hsuffix.
  split; [done|]. by apply last_of_suffix.
Qed.

(** X9.  The result an exchange returns is what the service answered to
    the last request the exchange sent. *)
Theorem exchange_result_is_last_answer conversation w text total_tokens elapsed :
  let run := do_chatbot_conversation_exchange duration client conversation w in
  fst run = Ret (text, total_tokens, elapsed) ->
  exists earlier envelope,
    requests (snd run) = (requests w ++ earlier ++ [envelope])%list /\
    client (requests w ++ earlier)%list envelope =
      Completed text total_tokens elapsed.
Proof.
  cbv zeta. unfold do_chatbot_conversation_exchange. intros Hret.
  destruct (retry_loop_effect client (seq 0 max_retry) conversation w)
    as (slept & sent_envelopes & _ & _ & Hreq & _ & _ & _ & Hout).
  rewrite Hret in Hout. destruct Hout as (earlier & envelope & -> & Hc).
  by exists earlier, envelope.
Qed.

(** X10.  The retry loop (lines 129-158), when it does not return a
    result, ends in one of two ways: [exit(1)], and then exactly seven
    requests have been sent; or the [IndexError] of [pop(0)], and then
    the last request sent carried an empty envelope.  No other
    exception and no other exit status comes out of the loop. *)
Theorem exchange_failure_modes conversation w :
  let run := retry_loop duration client (seq 0 max_retry) conversation w in
  exists sent_envelopes,
    requests (snd run) = (requests w ++ sent_envelopes)%list /\
    match fst run with
    | Ret _ => True
    | Raise e => e = IndexError /\ last sent_envelopes = Some []
    | Exit code => code = 1 /\ length sent_envelopes = max_retry
    end.
Proof.
  cbv zeta.
  destruct (retry_loop_effect client (seq 0 max_retry) conversation w)
    as (slept & sent_envelopes & _ & _ & Hreq & _ & _ & _ & Hout).
  exists sent_envelopes. split; [done|].
  destruct (fst (retry_loop duration client (seq 0 max_retry) conversation w))
    as [r|e|code]; [done|done|].
  destruct Hout as [-> Hlen]. by rewrite length_seq in Hlen.
Qed.

End ExchangeProperties.

(** ** The console session *)

Section Session.

Implicit Types (w : World).

Lemma keeps_stdin_bind {A B} (m : M A) (k : A -> M B) w :
  stdin (snd (m w)) = stdin w ->
  (forall a w1, stdin (snd (k a w1)) = stdin w1) ->
  stdin (snd (bind m k w)) = stdin w.
Proof.
  intros Hm Hk. unfold bind.
  destruct (m w) as [[a|e|code] w1]; cbn [snd] in *; [|done..].
  by rewrite Hk.
Qed.

(** What the multi-line loop does to the console and the files: it
    reads lines from the front, writes no file, and raises nothing but
    [EOFError]. *)
Lemma multi_line_loop_reads fuel :
  forall collected w,
    let run := multi_line_loop fuel collected w in
    stdin (snd run) `suffix_of` stdin w /\
    files (snd run) = files w /\
    match fst run with
    | Ret _ => True
    | Raise e => e = EOFError
    | Exit _ => False
    end.
Proof.
  induction fuel as [|fuel IH]; intros collected w; cbv zeta; [done|].
  cbn [multi_line_loop]. unfold bind, input.
  destruct (stdin w) as [|line rest] eqn:Hin.
  - cbn. by rewrite Hin.
  - destruct (String.eqb line "END").
    + cbn. split; [|done]. by apply suffix_cons_r.
    + destruct (IH (collected ++ [line])%list (with_stdin rest w))
        as (Hsuffix & Hfiles & Hout).
      split; [|done]. by apply suffix_cons_r.
Qed.

(** What reading at the prompt does to the console and the files. *)
Lemma get_user_input_reads w :
  let run := get_user_input w in
  stdin (snd run) `suffix_of` stdin w /\
  (forall r, fst run = Ret r ->
             (length (stdin (snd run)) < length (stdin w))%nat) /\
  (forall filepath,
      filepath <> "scratchpad.txt" ->
      files (snd run) !! filepath = files w !! filepath) /\
  match fst run with
  | Ret _ => True
  | Raise e => e = EOFError
  | Exit code => code = 0
  end.
Proof.
  cbv zeta. unfold get_user_input, bind, input.
  destruct (stdin w) as [|text rest] eqn:Hin.
  - cbn. rewrite Hin. by repeat split.
  - assert (Hshort : forall l : list string,
              l `suffix_of` rest -> (length l < length (text :: rest))%nat).
    { intros l [k ->]. cbn. rewrite length_app. lia. }
    destruct (String.eqb "END" text).
    + cbn. repeat split; try done. by apply suffix_cons_r.
    + destruct (String.eqb "SCRATCHPAD" text || String.eqb "M" text).
      * unfold multi_line_input, bind.
        destruct (multi_line_loop_reads
                    (S (length (stdin (with_stdin rest w)))) []
                    (with_stdin rest w)) as (Hsuffix & Hfiles & Hout).
        destruct (multi_line_loop _ [] (with_stdin rest w))
          as [[lines|e|code] w1]; cbn [fst snd] in *; try done.
        -- repeat split; try done.
           ++ by apply suffix_cons_r.
           ++ intros _ _. by apply Hshort.
           ++ intros filepath Hne. cbn. rewrite lookup_insert_ne by done.
              by rewrite Hfiles.
        -- repeat split; try done.
           ++ by apply suffix_cons_r.
           ++ intros filepath _. by rewrite Hfiles.
      * cbn. repeat split; try done.
        -- by apply suffix_cons_r.
        -- intros _ _. lia.
Qed.

End Session.

(** X11.  Reading at the prompt never sends a request, never sleeps
    and never touches a list object; of the files it can only change the
    scratchpad; it takes lines from the front of the console input (at
    least one when it returns); and it ends by returning, by [exit(0)]
    or by [EOFError]. *)
Theorem prompt_only_reads_and_saves (w : World) :
  let run := get_user_input w in
  console_only w (snd run) /\
  (forall filepath,
      filepath <> "scratchpad.txt" ->
      files (snd run) !! filepath = files w !! filepath) /\
  stdin (snd run) `suffix_of` stdin w /\
  (forall r, fst run = Ret r ->
             (length (stdin (snd run)) < length (stdin w))%nat) /\
  match fst run with
  | Ret _ => True
  | Raise e => e = EOFError
  | Exit code => code = 0
  end.
Proof.
  cbv zeta.
  destruct (get_user_input_reads w) as (Hsuffix & Hshort & Hfiles & Hout).
  split; [apply get_user_input_console|]. by repeat split.
Qed.

Section SessionRuns.

Context {duration : Type}.
Variable client : list (list Message) -> list Message -> Reply duration.

Implicit Types (w : World).

Lemma store_stdin l items w : stdin (snd (store l items w)) = stdin w.
Proof. reflexivity. Qed.

(** After the prompt a turn reads nothing more from the console. *)
Lemma main_turn_stdin w :
  stdin (snd (main_turn duration client w)) = stdin (snd (get_user_input w)).
Proof.
  unfold main_turn. unfold bind at 1.
  destruct (get_user_input w) as [[[text|]|e|code] w1]; cbn [snd]; try done.
  destruct (String.eqb text ""); [done|].
  apply keeps_stdin_bind; [done|]. intros history w2.
  apply keeps_stdin_bind; [done|]. intros _ w3.
  apply keeps_stdin_bind.
  { unfold open_file. by destruct (files w3 !! _). }
  intros template w4.
  apply keeps_stdin_bind.
  { unfold open_file. by destruct (files w4 !! _). }
  intros scratchpad w5.
  apply keeps_stdin_bind; [done|]. intros conversation w6.
  apply keeps_stdin_bind.
  { by destruct (exchange_frame client conversation w6) as (_ & _ & _ & Hin & _). }
  intros [[response tokens] processing_time] w7.
  apply keeps_stdin_bind.
  { unfold trim_if_over_budget.
    apply keeps_stdin_bind; [done|]. intros budget w8.
    destruct (tokens >? budget); [|done].
    apply keeps_stdin_bind; [done|]. intros history' w9.
    apply keeps_stdin_bind; [|done].
    unfold list_pop. by destruct (deref w9 history' !! 0%nat). }
  intros _ w8. apply keeps_stdin_bind; done.
Qed.

Lemma main_turn_consumes w :
  fst (main_turn duration client w) = Ret tt ->
  (length (stdin (snd (main_turn duration client w))) < length (stdin w))%nat.
Proof.
  rewrite main_turn_stdin. intros Hret.
  destruct (get_user_input_reads w) as (_ & Hshort & _).
  unfold main_turn in Hret. unfold bind at 1 in Hret.
  destruct (get_user_input w) as [[r|e|code] w1]; cbn [fst snd] in *; try done.
  by apply (Hshort r).
Qed.

(** X12.  A session with finitely many lines of console input ends:
    every pass of the main loop that completes has consumed at least
    one line, so once the loop may run more passes than there are lines
    it is no longer running: it has ended by an exit or an exception. *)
Theorem session_always_ends (fuel : nat) (w : World) :
  (length (stdin w) < fuel)%nat ->
  still_running (fst (main_loop duration client fuel w)) = false.
Proof.
  revert w. induction fuel as [|fuel IH]; intros w Hfuel; [lia|].
  cbn [main_loop]. unfold bind.
  pose proof (main_turn_consumes w) as Hshort.
  destruct (main_turn duration client w) as [[[]|e|code] w1];
    cbn [fst snd] in *; [|done..].
  apply IH. specialize (Hshort eq_refl). lia.
Qed.

End SessionRuns.

(** ** What the history holds *)

Lemma history_trace_preserves (P : Message -> Prop) l before ws after :
  (forall m, role m = user \/ role m = assistant -> P m) ->
  history_trace l before ws after ->
  Forall P before -> Forall P after.
Proof.
  intros Hrole.
  induction 1 as [items|items wr ws items' _ _ IH|items wr ws items' _ _ Hstep _ IH];
    intros Hall; [done|by apply IH|].
  apply IH.
  destruct Hstep as [(m & Hm & ->)|(m & ->)].
  - apply Forall_app. split; [done|]. constructor; [by apply Hrole|done].
  - by apply Forall_cons in Hall as [_ Hall].
Qed.

(** X13.  The system message is never stored: when no item of the
    history is a system message, none is after any number of passes of
    the main loop, however the passes end. *)
Theorem history_never_holds_system_message {duration : Type}
    (client : list (list Message) -> list Message -> Reply duration)
    (fuel : nat) (w : World) :
  history_allocated w ->
  Forall (fun m => role m <> system) (deref w (ALL_MESSAGES (app_state w))) ->
  Forall (fun m => role m <> system)
    (deref (snd (main_loop duration client fuel w)) (ALL_MESSAGES (app_state w))).
Proof.
  intros Hvalid Hall.
  destruct (main_loop_evolves client fuel w Hvalid) as (_ & _ & new & _ & Htrace).
  eapply history_trace_preserves; [|exact Htrace|exact Hall].
  intros m [Hm|Hm]; rewrite Hm; discriminate.
Qed.

(** ** From the scratchpad to the next request *)


(** ** The request transcript log *)

Lemma string_app_empty_r (s : string) : s +:+ "" = s.
Proof.
  induction s as [|c s IH]; [done|].
  change (String c (s +:+ "") = String c s). by f_equal.
Qed.

Lemma human_readable_from (text : string) (conversation : list Message) :
  human_readable text conversation = text +:+ human_readable "" conversation.
Proof.
  revert text. induction conversation as [|message more IH]; intros text.
  - cbn. by rewrite string_app_empty_r.
  - cbn [human_readable]. rewrite IH, (IH ("" +:+ _)).
    by rewrite string_app_assoc.
Qed.

(** X15.  The transcript lists the messages in order, one block each:
    the role in capitals ("USER", "ASSISTANT" or "SYSTEM"), a colon, a
    newline, the content as it is, and two newlines.  The transcript of
    two conversations put end to end is the first transcript followed
    by the second. *)
Theorem human_readable_in_order (first second : list Message)
    (r : role_t) (text : string) :
  human_readable "" [mkMessage r text] =
    match r with
    | user => "USER:"
    | assistant => "ASSISTANT:"
    | system => "SYSTEM:"
    end +:+ PyStr.NL +:+ text +:+ PyStr.NL +:+ PyStr.NL /\
  human_readable ""
    [mkMessage user "hi"; mkMessage assistant "Hello!";
     mkMessage system "Be brief."] =
    "USER:" +:+ PyStr.NL +:+ "hi" +:+ PyStr.NL +:+ PyStr.NL +:+
    "ASSISTANT:" +:+ PyStr.NL +:+ "Hello!" +:+ PyStr.NL +:+ PyStr.NL +:+
    "SYSTEM:" +:+ PyStr.NL +:+ "Be brief." +:+ PyStr.NL +:+ PyStr.NL /\
  human_readable "" (first ++ second) =
    human_readable "" first +:+ human_readable "" second.
Proof.
  split; [by destruct r|]. split; [by vm_compute|].
  induction first as [|m more IH]; [reflexivity|].
  cbn [app human_readable].
  rewrite human_readable_from, (human_readable_from ("" +:+ _) more), IH.
  symmetry. apply string_app_assoc.
Qed.

Lemma timestamp_is_relative (timestamp rest : string) :
  is_timestamp timestamp = true ->
  String.prefix "/" (timestamp +:+ rest) = false.
Proof.
  destruct timestamp as [|c timestamp]; [done|].
  intros Hshape.
  assert (Hdigit : is_digit c = true).
  { unfold is_timestamp in Hshape. cbn [list_ascii_of_string] in Hshape.
    destruct (list_ascii_of_string timestamp)
      as [|a1 [|a2 [|a3 [|a4 [|a5 [|a6 [|a7 [|a8 [|a9 [|a10 [|a11 [|a12 [|a13 [|a14 [|a15 l]]]]]]]]]]]]]]];
      try done.
    cbn [forallb] in Hshape.
    by apply andb_true_iff in Hshape as [[? _]%andb_true_iff _]. }
  change (String.prefix "/" (String c (timestamp +:+ rest)) = false).
  cbn [String.prefix].
  destruct (ascii_dec "/" c) as [<-|]; [|done].
  by vm_compute in Hdigit.
Qed.

(** X16.  Saving the request transcript at a moment with time stamp
    [timestamp], under a suffix that is a plain file-name part (no
    slash, so that the file lies in [log/openai] itself), writes one
    file, [log/openai/<timestamp><suffix>.txt], holding the transcript
    of the items the conversation has at that moment.  That path is
    never the key file, the template or the scratchpad: what the program
    reads from those is the same after logging; and logging sends
    nothing and changes no list object.  So for the envelope of "hi" and
    the system message "Be brief.", logged under the suffix
    [_gpt-4_request], the file holds
    "USER:<LF>hi<LF><LF>SYSTEM:<LF>Be brief.<LF><LF>". *)
Theorem transcript_log_keeps_working_files :
  (forall timestamp conversation suffix w,
      is_timestamp timestamp = true ->
      plain_suffix suffix = true ->
      let run :=
        save_request_as_humanreadable_text timestamp conversation suffix w in
      files (snd run) =
        <["log/openai/" +:+ timestamp +:+ suffix +:+ ".txt" :=
            human_readable "" (deref w conversation)]> (files w) /\
      (forall working,
          working = "key_openai.txt" \/ working = "system_message.txt" \/
          working = "scratchpad.txt" ->
          open_file working (snd run) = (fst (open_file working w), snd run)) /\
      console_only w (snd run)) /\
  (let w := exchange_world []
              [mkMessage user "hi"; mkMessage system "Be brief."] in
   let run := save_request_as_humanreadable_text "20240131_235959" 1%nat
                "_gpt-4_request" w in
   files (snd run) !! "log/openai/20240131_235959_gpt-4_request.txt" =
     Some ("USER:" +:+ PyStr.NL +:+ "hi" +:+ PyStr.NL +:+ PyStr.NL +:+
           "SYSTEM:" +:+ PyStr.NL +:+ "Be brief." +:+ PyStr.NL +:+ PyStr.NL) /\
   dom (files (snd run)) =
     dom (files w) ∪ {["log/openai/20240131_235959_gpt-4_request.txt"]}).
Proof.
  split; [|by vm_compute].
  intros timestamp conversation suffix w Hshape _. cbv zeta.
  assert (Hfiles :
    files (snd (save_request_as_humanreadable_text timestamp conversation
                  suffix w)) =
    <["log/openai/" +:+ timestamp +:+ suffix +:+ ".txt" :=
        human_readable "" (deref w conversation)]> (files w)).
  { unfold save_request_as_humanreadable_text, create_log_file, bind, ret,
      save_file, path_join.
    rewrite (timestamp_is_relative timestamp (suffix +:+ ".txt") Hshape).
    reflexivity. }
  split; [exact Hfiles|]. split; [|done].
  intros working Hworking. unfold open_file. rewrite Hfiles.
  rewrite lookup_insert_ne; [by destruct (files w !! working)|].
  destruct Hworking as [-> | [-> | ->]]; discriminate.
Qed.

(** * The properties on concrete runs *)

Lemma shrinking_client_fails_then_completes N :
  fails_then_completes (shrinking_client N) 0 N "ok" 42 tt.
Proof.
  split; intros log envelope Hlen; unfold shrinking_client.
  - exists context_length_reply.
    destruct (Nat.ltb_spec (length log) N); [done|lia].
  - destruct (Nat.ltb_spec (length log) N); [lia|done].
Qed.

Lemma unavailable_client_always_fails_otherwise :
  always_fails_otherwise unavailable_client.
Proof. intros log envelope. by exists "Service unavailable". Qed.

Lemma unavailable_client_always_fails : always_fails unavailable_client.
Proof. intros log envelope. by exists "Service unavailable". Qed.

(** C1 as the specification words it does not hold: seven
    context-length failures followed by a completion do not yield a
    result.  Each
    failure has used one of the seven passes, so the loop is over before
    the service would complete, and the process exits with status 1
    (without having slept).  Likewise one context-length failure followed
    by other failures leaves six passes, not seven: the sleeps start at
    10 seconds. *)
Lemma context_length_failures_use_up_passes :
  fails_then_completes (shrinking_client 7) 0 7 "ok" 42 tt /\
  (let r := do_chatbot_conversation_exchange unit (shrinking_client 7) 1%nat
              (exchange_world [] (numbered_messages 8)) in
   fst r = Exit 1 /\ sleeps (snd r) = [] /\
   length (requests (snd r)) = 7%nat) /\
  (let r := do_chatbot_conversation_exchange unit shrink_once_client 1%nat
              (exchange_world [] (numbered_messages 2)) in
   fst r = Exit 1 /\ sleeps (snd r) = [10; 20; 40; 80; 160; 320] /\
   length (requests (snd r)) = 7%nat).
Proof.
  split; [apply shrinking_client_fails_then_completes|].
  by vm_compute.
Qed.

(** C1 (as amended) on two context-length failures and a three-item
    envelope: the third request carries the last item only. *)
Lemma context_length_retry_shrinks_witness :
  let r := do_chatbot_conversation_exchange unit (shrinking_client 2) 1%nat
             (exchange_world [] (numbered_messages 3)) in
  fst r = Ret ("ok", 42, tt) /\
  sleeps (snd r) = sleeps (exchange_world [] (numbered_messages 3)) /\
  requests (snd r) =
    (requests (exchange_world [] (numbered_messages 3)) ++
     shrinking_envelopes
       (deref (exchange_world [] (numbered_messages 3)) 1%nat) 2)%list /\
  last (requests (snd r)) =
    Some (drop 2 (deref (exchange_world [] (numbered_messages 3)) 1%nat)) /\
  (length (requests (snd r)) <=
   length (requests (exchange_world [] (numbered_messages 3))) + max_retry)%nat.
Proof.
  apply (context_length_retry_shrinks (shrinking_client 2) 2 1%nat
           (exchange_world [] (numbered_messages 3)) "ok" 42 tt).
  - unfold max_retry. lia.
  - simpl. lia.
  - apply shrinking_client_fails_then_completes.
Defined.

(** C3 on a service that is unavailable. *)
Lemma backoff_schedule_then_fatal_witness :
  let w := exchange_world [] (numbered_messages 2) in
  let r := do_chatbot_conversation_exchange unit unavailable_client 1%nat w in
  fst r = Exit 1 /\
  sleeps (snd r) = (sleeps w ++ [5; 10; 20; 40; 80; 160; 320])%list /\
  requests (snd r) = (requests w ++ replicate 7 (deref w 1%nat))%list.
Proof.
  apply (backoff_schedule_then_fatal unavailable_client 1%nat
           (exchange_world [] (numbered_messages 2))).
  apply unavailable_client_always_fails_otherwise.
Defined.

(** C4 on a two-item history and 8000 tokens against a budget of 7500. *)
Lemma trim_if_over_budget_oldest_witness :
  let w := exchange_world (numbered_messages 2) [] in
  fst (trim_if_over_budget 8000 w) = Ret tt /\
  deref (snd (trim_if_over_budget 8000 w)) (ALL_MESSAGES (app_state w)) =
    (if decide (8000 > MODEL_MAX_TOKENS (app_state w))
     then drop 1 (deref w (ALL_MESSAGES (app_state w)))
     else deref w (ALL_MESSAGES (app_state w))) /\
  length (deref (snd (trim_if_over_budget 8000 w)) (ALL_MESSAGES (app_state w))) =
    (if decide (8000 > MODEL_MAX_TOKENS (app_state w))
     then (length (deref w (ALL_MESSAGES (app_state w))) - 1)%nat
     else length (deref w (ALL_MESSAGES (app_state w)))).
Proof.
  apply (trim_if_over_budget_oldest 8000
           (exchange_world (numbered_messages 2) [])).
  simpl. discriminate.
Defined.

(** C5 on a session of two turns. *)
Lemma history_changes_by_append_or_pop_front_witness :
  let w := initial_world scenario_files ["hi"; "more"; "END"] in
  let w' := snd (main_loop unit (shrinking_client 1) 3 w) in
  exists new,
    writes w' = (writes w ++ new)%list /\
    history_trace 0%nat (deref w 0%nat) new (deref w' 0%nat) /\
    Forall (fun wr => w_loc wr = 0%nat ->
                      history_step (w_before wr) (w_after wr)) new.
Proof.
  apply (history_changes_by_append_or_pop_front (shrinking_client 1) 3
           (initial_world scenario_files ["hi"; "more"; "END"])).
  unfold history_allocated. simpl. lia.
Defined.

(** C6 on a one-item history and a service that fails once with a
    context-length error. *)
Lemma envelope_never_touches_history_witness :
  let w := exchange_world (numbered_messages 1) [] in
  let built := build_request "You are helpful." w in
  exists conversation,
    fst built = Ret conversation /\
    conversation <> 0%nat /\
    deref (snd built) 0%nat = deref w 0%nat /\
    length (deref (snd built) 0%nat) = length (deref w 0%nat) /\
    (forall error,
        deref (snd (handle_error error conversation (snd built))) 0%nat =
        deref w 0%nat) /\
    deref (snd (do_chatbot_conversation_exchange unit (shrinking_client 1)
                  conversation (snd built))) 0%nat =
      deref w 0%nat.
Proof.
  apply (envelope_never_touches_history (shrinking_client 1) "You are helpful."
           (exchange_world (numbered_messages 1) [])).
  unfold history_allocated. simpl. lia.
Defined.

(** C7 on a history that already holds one message, with a template
    and a scratchpad stored with carriage returns. *)
Lemma envelope_is_history_then_system_message_witness :
  let w := with_files stored_with_carriage_returns
             (with_stdin ["and then?"]
                (exchange_world (numbered_messages 1) [])) in
  exists more,
    requests (snd (main_turn unit (shrinking_client 0) w)) =
      [mkMessage user "0"; mkMessage user "and then?";
       mkMessage system
         ("You are helpful." +:+ PyStr.NL +:+ "x = 1" +:+ PyStr.NL +:+
          PyStr.NL +:+ "Bye")]
      :: more.
Proof.
  destruct (proj1 (envelope_is_history_then_system_message (shrinking_client 0))
              (with_files stored_with_carriage_returns
                 (with_stdin ["and then?"]
                    (exchange_world (numbered_messages 1) [])))
              "and then?" []
              ("You are helpful." +:+ CR +:+ PyStr.NL +:+ "<<CODE>>" +:+ CR +:+ "Bye")
              ("x = 1" +:+ CR +:+ PyStr.NL))
    as [more Hmore].
  - unfold history_allocated. simpl. lia.
  - reflexivity.
  - discriminate.
  - discriminate.
  - discriminate.
  - discriminate.
  - reflexivity.
  - reflexivity.
  - exists more. etransitivity; [exact Hmore|]. reflexivity.
Defined.

(** C8 on "END" typed first, and on a service that is unavailable. *)
Lemma exit_status_of_quit_and_of_exhaustion_witness :
  (fst (main unit unavailable_client 1 (initial_world scenario_files ["END"])) =
     Exit 0 /\
   requests (snd (main unit unavailable_client 1
                    (initial_world scenario_files ["END"]))) =
     requests (initial_world scenario_files ["END"])) /\
  (fst (do_chatbot_conversation_exchange unit unavailable_client 1%nat
          (exchange_world [] (numbered_messages 2))) = Exit 1 /\
   length (requests (snd (do_chatbot_conversation_exchange unit
                            unavailable_client 1%nat
                            (exchange_world [] (numbered_messages 2))))) =
     (length (requests (exchange_world [] (numbered_messages 2))) + max_retry)%nat).
Proof.
  split.
  - apply (proj1 (exit_status_of_quit_and_of_exhaustion unavailable_client) 0%nat
             (initial_world scenario_files ["END"]) [] "sk-0000");
      reflexivity.
  - apply (proj2 (exit_status_of_quit_and_of_exhaustion unavailable_client)).
    apply unavailable_client_always_fails.
Defined.

(** C9 on a fresh session. *)
Lemma scratchpad_entry_foo_bar_witness :
  let w := initial_world scenario_files ["M"; "foo"; "bar"; "END"; "hi"] in
  let run := main_turn unit unavailable_client w in
  fst run = Ret tt /\
  files (snd run) !! "scratchpad.txt" = Some ("foo" +:+ PyStr.NL +:+ "bar") /\
  requests (snd run) = requests w /\
  stdin (snd run) = ["hi"].
Proof.
  apply (scratchpad_entry_foo_bar unavailable_client
           (initial_world scenario_files ["M"; "foo"; "bar"; "END"; "hi"]) ["hi"]).
  reflexivity.
Defined.


(** * The further properties on concrete runs *)

(** X2 on a directory without any file. *)
Lemma main_without_key_file_witness :
  main unit unavailable_client 5 (initial_world ∅ ["hi"]) =
    (Raise (FileNotFoundError "key_openai.txt"), initial_world ∅ ["hi"]).
Proof.
  apply (main_without_key_file unavailable_client 5 (initial_world ∅ ["hi"])).
  reflexivity.
Defined.

(** X3 on a directory that only holds the template. *)
Lemma turn_with_missing_file_witness :
  let w := initial_world {[ "system_message.txt" := "Be brief." ]} ["hi"] in
  let run := main_turn unit unavailable_client w in
  fst run =
    Raise (FileNotFoundError
             (match files w !! "system_message.txt" with
              | Some _ => "scratchpad.txt"
              | None => "system_message.txt"
              end)) /\
  deref (snd run) (ALL_MESSAGES (app_state w)) =
    (deref w (ALL_MESSAGES (app_state w)) ++ [mkMessage user "hi"])%list /\
  requests (snd run) = requests w.
Proof.
  apply (turn_with_missing_file unavailable_client
           (initial_world {[ "system_message.txt" := "Be brief." ]} ["hi"])
           "hi" []).
  - unfold history_allocated. simpl. lia.
  - reflexivity.
  - discriminate.
  - discriminate.
  - discriminate.
  - discriminate.
  - right. split; [by eexists|reflexivity].
Defined.

(** X4 on an empty line followed by "END". *)
Lemma empty_submission_is_ignored_witness :
  main_turn unit unavailable_client (initial_world scenario_files [""; "END"]) =
    (Ret tt, with_stdin ["END"] (initial_world scenario_files [""; "END"])).
Proof.
  apply (empty_submission_is_ignored unavailable_client
           (initial_world scenario_files [""; "END"]) ["END"]).
  reflexivity.
Defined.

(** X5 on a block that is never closed. *)
Lemma end_of_input_raises_witness :
  let w := initial_world scenario_files ["M"; "foo"] in
  fst (get_user_input w) = Raise EOFError /\
  files (snd (get_user_input w)) = files w /\
  stdin (snd (get_user_input w)) = [].
Proof.
  apply (proj2 (end_of_input_raises (initial_world scenario_files ["M"; "foo"]))
           "M" ["foo"]).
  - by right.
  - repeat constructor; discriminate.
  - reflexivity.
Defined.

(** X6 on a first turn over budget after one context-length failure:
    the history is left with the assistant's reply only. *)
Lemma completed_turn_history_witness :
  let w := initial_world scenario_files ["hi"] in
  let run := main_turn unit
               (fun log _ => if (length log <? 1)%nat
                             then Failed context_length_reply
                             else Completed "hello" 9000 tt) w in
  fst run = Ret tt /\
  deref (snd run) (ALL_MESSAGES (app_state w)) =
    ((if decide (9000 > MODEL_MAX_TOKENS (app_state w))
      then drop 1 (deref w (ALL_MESSAGES (app_state w)) ++ [mkMessage user "hi"])
      else deref w (ALL_MESSAGES (app_state w)) ++ [mkMessage user "hi"]) ++
     [mkMessage assistant "hello"])%list /\
  length (requests (snd run)) = (length (requests w) + 2)%nat /\
  sleeps (snd run) = sleeps w.
Proof.
  apply (completed_turn_history
           (fun log _ => if (length log <? 1)%nat
                         then Failed context_length_reply
                         else Completed "hello" 9000 tt)
           (initial_world scenario_files ["hi"]) "hi" []
           "You are helpful. <<CODE>>" "" 1 "hello" 9000 tt).
  - unfold history_allocated. simpl. lia.
  - reflexivity.
  - discriminate.
  - discriminate.
  - discriminate.
  - discriminate.
  - reflexivity.
  - reflexivity.
  - unfold max_retry. lia.
  - simpl. lia.
  - split; intros log envelope Hlen; simpl in Hlen.
    + exists context_length_reply.
      destruct (Nat.ltb_spec (length log) 1); [split; reflexivity|lia].
    + destruct (Nat.ltb_spec (length log) 1); [lia|reflexivity].
Defined.

(** X9 on two context-length failures before the completion. *)
Lemma exchange_result_is_last_answer_witness :
  let w := exchange_world [] (numbered_messages 3) in
  let run := do_chatbot_conversation_exchange unit (shrinking_client 2) 1%nat w in
  exists earlier envelope,
    requests (snd run) = (requests w ++ earlier ++ [envelope])%list /\
    shrinking_client 2 (requests w ++ earlier)%list envelope =
      Completed "ok" 42 tt.
Proof.
  apply (exchange_result_is_last_answer (shrinking_client 2) 1%nat
           (exchange_world [] (numbered_messages 3)) "ok" 42 tt).
  reflexivity.
Defined.

(** X12 on a session of two turns that runs out of input. *)
Lemma session_always_ends_witness :
  still_running
    (fst (main_loop unit (shrinking_client 0) 3
            (initial_world scenario_files ["hi"; "more"]))) = false.
Proof.
  apply (session_always_ends (shrinking_client 0) 3
           (initial_world scenario_files ["hi"; "more"])).
  simpl. lia.
Defined.

(** X13 on a session of two turns. *)
Lemma history_never_holds_system_message_witness :
  let w := initial_world scenario_files ["hi"; "more"; "END"] in
  Forall (fun m => role m <> system)
    (deref (snd (main_loop unit (shrinking_client 1) 3 w))
       (ALL_MESSAGES (app_state w))).
Proof.
  apply (history_never_holds_system_message (shrinking_client 1) 3
           (initial_world scenario_files ["hi"; "more"; "END"])).
  - unfold history_allocated. simpl. lia.
  - constructor.
Defined.


(** X16 on the envelope of a first turn. *)
Lemma transcript_log_keeps_working_files_witness :
  let w := exchange_world [] (numbered_messages 2) in
  let run := save_request_as_humanreadable_text "20240131_235959" 1%nat
               "_gpt-4_request" w in
  files (snd run) =
    <["log/openai/" +:+ "20240131_235959" +:+ "_gpt-4_request" +:+ ".txt" :=
        human_readable "" (deref w 1%nat)]> (files w) /\
  (forall working,
      working = "key_openai.txt" \/ working = "system_message.txt" \/
      working = "scratchpad.txt" ->
      open_file working (snd run) = (fst (open_file working w), snd run)) /\
  console_only w (snd run).
Proof.
  apply (proj1 transcript_log_keeps_working_files "20240131_235959" 1%nat
           "_gpt-4_request" (exchange_world [] (numbered_messages 2))).
  - reflexivity.
  - reflexivity.
Defined.
